(** * Issue reporting and citizen dashboard: a shallow embedding

    The development follows two React components of the client:

    - [ReportIssue] (src/pages/ReportIssue.tsx): [calculatePriorityRating]
      and the form handler [handleSubmit];
    - [CitizenDashboard]: the effect [fetchIssues] that reads the user's
      issues and the leaderboard out of [localStorage].

    JavaScript values are modelled as the code uses them.  Strings are
    [string]; a [number] holding the experience points is an integer [Z]
    (the data model declares it an integer); the priority rating is an
    exact rational [Q] (module [Binary64] relates it to the IEEE doubles
    the browser computes with).  [localStorage] holds JSON text: an entry
    is modelled by the document [JSON.parse] yields for it, or by
    [Garbled] when [JSON.parse] rejects the text.  Exceptions, component
    state and browser state are threaded by a small state-and-exception
    monad. *)

From Stdlib Require Import ZArith QArith Qround Qminmax String List Lia PrimFloat.
From Stdlib Require Import Sorting.Sorted Sorting.Permutation.
From stdpp Require Import base list strings.

Local Open Scope Z_scope.

(** ** JavaScript runtime fragments *)

Module JS.

(** The two exceptions the components can raise. *)
Inductive exn : Type :=
| SyntaxError   (* JSON.parse on text that is not JSON *)
| TypeError.    (* property access on, or spread of, undefined / null *)

Inductive completion (A : Type) : Type :=
| Normal (a : A)
| Throw (e : exn).
Arguments Normal {A} a.
Arguments Throw {A} e.

(** Statements run over a state [S] and either complete or throw; the
    state reached before a throw is kept. *)
Definition M (S A : Type) : Type := S -> S * completion A.

Definition ret {S A} (a : A) : M S A := fun s => (s, Normal a).

Definition bind {S A B} (m : M S A) (k : A -> M S B) : M S B :=
  fun s => match m s with
           | (s', Normal a) => k a s'
           | (s', Throw e) => (s', Throw e)
           end.

Definition throw {S A} (e : exn) : M S A := fun s => (s, Throw e).

Definition get {S} : M S S := fun s => (s, Normal s).

Definition modify {S} (f : S -> S) : M S unit := fun s => (f s, Normal tt).

(** [try { body } catch (error) { handler error }]: nothing escapes. *)
Definition try_catch {S} (body : M S unit) (handler : exn -> S -> S) : S -> S :=
  fun s => match body s with
           | (s', Normal _) => s'
           | (s', Throw e) => handler e s'
           end.

(** [try { body } catch (error) { handler error } finally { final }]. *)
Definition try_catch_finally {S} (body : M S unit) (handler : exn -> S -> S)
    (final : S -> S) : S -> S :=
  fun s => final (try_catch body handler s).

(** Truthiness of a string: only the empty string is falsy. *)
Definition truthy (s : string) : bool := negb (String.eqb s "").

(** [x || d] on numbers: [0] is falsy. *)
Definition or_number (x d : Z) : Z := if x =? 0 then d else x.

(** [o?.f] on a possibly null object. *)
Definition optional_chain {A B} (o : option A) (f : A -> B) : option B :=
  match o with
  | Some a => Some (f a)
  | None => None
  end.

(** [o!.f] and [o.f]: the non-null assertion is erased by the compiler,
    so reading a property of [null] or [undefined] throws. *)
Definition member {S A B} (o : option A) (f : A -> B) : M S B :=
  match o with
  | Some a => ret (f a)
  | None => throw TypeError
  end.

(** [[...o]]: spreading [undefined] throws, an array is copied. *)
Definition spread {S A} (o : option (list A)) : M S (list A) :=
  match o with
  | Some l => ret l
  | None => throw TypeError
  end.

(** [s === o] between a string and a value that is a string or
    undefined. *)
Definition strict_eq (s : string) (o : option string) : bool :=
  match o with
  | Some t => String.eqb s t
  | None => false
  end.

(** [Array.prototype.filter]. *)
Definition Array_filter {A} (callback : A -> bool) (l : list A) : list A :=
  List.filter callback l.

(** [Array.prototype.sort(comparefn)].  The language requires the sort
    to be stable; with a consistent comparator every stable sort returns
    the same array, here computed by insertion: an element moves right
    past [y] only when [comparefn x y > 0]. *)
Fixpoint sort_insert {A} (comparefn : A -> A -> Z) (x : A) (l : list A) : list A :=
  match l with
  | [] => [x]
  | y :: l' => if 0 <? comparefn x y
               then y :: sort_insert comparefn x l'
               else x :: y :: l'
  end.

Fixpoint Array_sort {A} (comparefn : A -> A -> Z) (l : list A) : list A :=
  match l with
  | [] => []
  | x :: l' => sort_insert comparefn x (Array_sort comparefn l')
  end.

(** [Array.prototype.slice(start, end)] for non-negative indices. *)
Definition Array_slice {A} (start stop : nat) (l : list A) : list A :=
  take (stop - start) (drop start l).

(** [Math.min] and [Math.round] (ties go towards +infinity). *)
Definition Math_min (x y : Q) : Q := Qmin x y.
Definition Math_round (x : Q) : Q := inject_Z (Qfloor (x + (1 # 2))).

(** ["x".repeat(n)]. *)
Fixpoint String_repeat (s : string) (n : nat) : string :=
  match n with
  | O => EmptyString
  | S n' => String.append s (String_repeat s n')
  end.

End JS.

Declare Scope js_scope.
Delimit Scope js_scope with js.
Notation "'let!' x ':=' m 'in' k" := (JS.bind m (fun x => k))
  (at level 10, x name, m at level 100, k at level 200) : js_scope.
Notation "'run!' m 'in' k" := (JS.bind m (fun _ => k))
  (at level 10, m at level 100, k at level 200) : js_scope.

(** ** Data model *)

Inductive UserType : Type := citizen | ngo.

(** [interface User]. *)
Module User.
Record t : Type := mk {
  id : string;
  email : string;
  name : string;
  type : UserType;
  xp_points : Z
}.
End User.

(** The issue object built by [handleSubmit]; [null] is [None]. *)
Module Issue.
Record t : Type := mk {
  id : string;
  title : string;
  description : string;
  status : string;
  severity : string;
  location : string;
  reporter_id : string;
  image_url : option string;
  created_at : string;
  solver_id : option string;
  solution_image_url : option string;
  solved_at : option string;
  priorityRating : Q
}.
End Issue.

(** ** localStorage *)

Module Storage.

(** What [JSON.parse] makes of a stored entry. *)
Inductive item (D : Type) : Type :=
| Garbled          (* text that JSON.parse rejects *)
| Json (d : D).
Arguments Garbled {D}.
Arguments Json {D} d.

(** The document under ["issuesData"]: [{ issues?: Issue[] }]. *)
Record IssuesData : Type := mkIssuesData { issues : option (list Issue.t) }.

(** The document under ["usersData"]: [{ citizens?: User[] }]. *)
Record UsersData : Type := mkUsersData { citizens : option (list User.t) }.

(** The two keys the components use; [None] is an absent key. *)
Record localStorage : Type := mk {
  issuesData : option (item IssuesData);
  usersData : option (item UsersData)
}.

(** [JSON.parse(entry || "{}")]: an absent key reads as the empty
    object [empty]. *)
Definition parse_or_empty {S D} (empty : D) (entry : option (item D)) : JS.M S D :=
  match entry with
  | None => JS.ret empty
  | Some Garbled => JS.throw JS.SyntaxError
  | Some (Json d) => JS.ret d
  end.

(** [localStorage.setItem("issuesData", JSON.stringify(d))]. *)
Definition setItem_issuesData (d : IssuesData) (ls : localStorage) : localStorage :=
  {| issuesData := Some (Json d); usersData := usersData ls |}.

End Storage.

(** ** Browser session shared by the components *)

Module Toast.
Record t : Type := mk {
  variant : option string;
  title : string;
  description : string
}.
End Toast.

Record Browser : Type := mkBrowser {
  storage : Storage.localStorage;
  user : option User.t;          (* useAuth().user *)
  toasts : list Toast.t;         (* toast(...) calls, oldest first *)
  route : list string;           (* navigate(...) calls, oldest first *)
  console : list string          (* console.error(...) calls, oldest first *)
}.

Definition setItem (d : Storage.IssuesData) (b : Browser) : Browser :=
  {| storage := Storage.setItem_issuesData d (storage b); user := user b;
     toasts := toasts b; route := route b; console := console b |}.

Definition toast (t : Toast.t) (b : Browser) : Browser :=
  {| storage := storage b; user := user b; toasts := toasts b ++ [t];
     route := route b; console := console b |}.

Definition navigate (path : string) (b : Browser) : Browser :=
  {| storage := storage b; user := user b; toasts := toasts b;
     route := route b ++ [path]; console := console b |}.

Definition console_error (msg : string) (b : Browser) : Browser :=
  {| storage := storage b; user := user b; toasts := toasts b;
     route := route b; console := console b ++ [msg] |}.

(** Modelled from the spec: [updateUserXP] of the authentication context,
    which is not part of the sources at hand.  The session provider
    "exposes updateXP(userId, newValue)": the experience points of the
    session user with that identifier become [newValue]. *)
Definition updateUserXP (userId : string) (newValue : Z) (b : Browser) : Browser :=
  match user b with
  | Some u =>
      if String.eqb (User.id u) userId
      then {| storage := storage b;
              user := Some {| User.id := User.id u; User.email := User.email u;
                              User.name := User.name u; User.type := User.type u;
                              User.xp_points := newValue |};
              toasts := toasts b; route := route b; console := console b |}
      else b
  | None => b
  end.

(** What the handlers take from the environment at the time they run. *)
Definition File : Type := string.

Record Env : Type := mkEnv {
  Math_random_toString : string;        (* Math.random().toString() *)
  Date_toISOString : string;            (* new Date().toISOString() *)
  URL_createObjectURL : File -> string  (* URL.createObjectURL(image) *)
}.

(** ** The report form *)

Module ReportIssue.

(** The component's [useState] variables next to the browser session. *)
Record State : Type := mkState {
  browser : Browser;
  title : string;
  description : string;
  severity : string;
  location : string;
  image : option File;
  verified : bool;
  loading : bool
}.

Definition on_browser (f : Browser -> Browser) (s : State) : State :=
  {| browser := f (browser s); title := title s; description := description s;
     severity := severity s; location := location s; image := image s;
     verified := verified s; loading := loading s |}.

Definition setLoading (b : bool) (s : State) : State :=
  {| browser := browser s; title := title s; description := description s;
     severity := severity s; location := location s; image := image s;
     verified := verified s; loading := b |}.

Definition calculatePriorityRating (severity description : string) : Q :=
  let severityScore : Q :=
    (if String.eqb severity "high" then 3
     else if String.eqb severity "medium" then 2 else 1)%Q in
  let descriptionScore : Q :=
    JS.Math_min (inject_Z (Z.of_nat (String.length description)) / 100)%Q 2%Q in
  (JS.Math_round ((severityScore + descriptionScore) * 10) / 10)%Q.

Definition missing_fields : Toast.t :=
  {| Toast.variant := Some "destructive";
     Toast.title := "Missing fields";
     Toast.description :=
       "Please fill in all required fields and verify you are human" |}.

Definition report_submitted : Toast.t :=
  {| Toast.variant := None;
     Toast.title := "Report submitted";
     Toast.description := "Your issue has been reported successfully" |}.

Definition submission_failed : Toast.t :=
  {| Toast.variant := Some "destructive";
     Toast.title := "Submission failed";
     Toast.description := "Please try again later" |}.

(** The object literal [newIssue]. *)
Definition newIssue (env : Env) (s : State) (reporter : string) : Issue.t :=
  let priorityRating := calculatePriorityRating (severity s) (description s) in
  let imageUrl :=
    match image s with
    | Some file => Some (URL_createObjectURL env file)
    | None => None
    end in
  {| Issue.id := Math_random_toString env;
     Issue.title := title s;
     Issue.description := description s;
     Issue.status := "pending";
     Issue.severity := severity s;
     Issue.location := location s;
     Issue.reporter_id := reporter;
     Issue.image_url := imageUrl;
     Issue.created_at := Date_toISOString env;
     Issue.solver_id := None;
     Issue.solution_image_url := None;
     Issue.solved_at := None;
     Issue.priorityRating := priorityRating |}.

(** The body of the [try] block; [s] is the render the handler closes
    over, the monad carries the state as the statements change it. *)
Definition submit_body (env : Env) (s : State) : JS.M State unit :=
  (run! JS.modify (setLoading true) in
   let! reporter := JS.member (user (browser s)) User.id in
   let newIssue := newIssue env s reporter in
   let! now := JS.get in
   let! existingData :=
     Storage.parse_or_empty {| Storage.issues := None |}
       (Storage.issuesData (storage (browser now))) in
   let updatedIssues :=
     {| Storage.issues :=
          Some (default [] (Storage.issues existingData) ++ [newIssue]) |} in
   run! JS.modify (on_browser (setItem updatedIssues)) in
   let newXP :=
     JS.or_number
       (default 0 (JS.optional_chain (user (browser s)) User.xp_points)) 0
     + 50 in
   run! JS.modify (on_browser (updateUserXP reporter newXP)) in
   run! JS.modify (on_browser (toast report_submitted)) in
   JS.modify (on_browser (navigate "/citizen/dashboard")))%js.

Definition handleSubmit (env : Env) (s : State) : State :=
  if negb (JS.truthy (title s)) || negb (JS.truthy (description s))
     || negb (JS.truthy (severity s)) || negb (verified s)
     || negb (JS.truthy (location s))
  then on_browser (toast missing_fields) s
  else
    JS.try_catch_finally
      (submit_body env s)
      (fun _ s' =>
         on_browser (toast submission_failed)
           (on_browser (console_error "Failed to submit report:") s'))
      (setLoading false)
      s.

End ReportIssue.

(** ** The citizen dashboard *)

Module CitizenDashboard.

Record State : Type := mkState {
  browser : Browser;
  issues : list Issue.t;
  topCitizens : list User.t
}.

Definition on_browser (f : Browser -> Browser) (s : State) : State :=
  {| browser := f (browser s); issues := issues s;
     topCitizens := topCitizens s |}.

Definition setIssues (l : list Issue.t) (s : State) : State :=
  {| browser := browser s; issues := l; topCitizens := topCitizens s |}.

Definition setTopCitizens (l : list User.t) (s : State) : State :=
  {| browser := browser s; issues := issues s; topCitizens := l |}.

(** The state of a freshly mounted component: both [useState([])]. *)
Definition mount (b : Browser) : State :=
  {| browser := b; issues := []; topCitizens := [] |}.

(** [data.issues.filter(issue => issue.reporter_id === user?.id)]. *)
Definition userIssues (u : option User.t) (l : list Issue.t) : list Issue.t :=
  JS.Array_filter
    (fun issue => JS.strict_eq (Issue.reporter_id issue)
                    (JS.optional_chain u User.id))
    l.

(** [(a, b) => b.xp_points - a.xp_points]. *)
Definition by_xp_descending (a b : User.t) : Z :=
  User.xp_points b - User.xp_points a.

(** [[...citizens].sort(...).slice(0, 5)]. *)
Definition sortedCitizens (citizens : list User.t) : list User.t :=
  JS.Array_slice 0 5 (JS.Array_sort by_xp_descending citizens).

(** The body of the [try] block of [fetchIssues]. *)
Definition fetch_body (s : State) : JS.M State unit :=
  (let! now := JS.get in
   let! data :=
     Storage.parse_or_empty {| Storage.issues := None |}
       (Storage.issuesData (storage (browser now))) in
   let! stored_issues := JS.member (Storage.issues data) (fun l => l) in
   run! JS.modify (setIssues (userIssues (user (browser s)) stored_issues)) in
   let! now' := JS.get in
   let! storedData :=
     Storage.parse_or_empty {| Storage.citizens := None |}
       (Storage.usersData (storage (browser now'))) in
   let! citizens := JS.spread (Storage.citizens storedData) in
   JS.modify (setTopCitizens (sortedCitizens citizens)))%js.

Definition fetchIssues (s : State) : State :=
  JS.try_catch
    (fetch_body s)
    (fun _ => on_browser (console_error "Failed to fetch issues:"))
    s.

End CitizenDashboard.

(** ** Vocabulary of the specification *)

(** The three severities of the data model and the strings the form's
    select box stores for them. *)
Inductive Severity : Type := low | medium | high.

Definition severity_name (sev : Severity) : string :=
  match sev with
  | low => "low"
  | medium => "medium"
  | high => "high"
  end.

(** The reference definition of the priority score, following the
    specification's words: a table lookup for the severity, the description
    length over 100 capped at 2, the sum rounded to one decimal place. *)
Definition score_reference (sev : Severity) (description : string) : Q :=
  let severityScore := match sev with low => 1 | medium => 2 | high => 3 end in
  let descriptionScore :=
    Qmin (Z.of_nat (String.length description) # 100) 2 in
  (inject_Z (Qfloor ((inject_Z severityScore + descriptionScore) * 10 + (1 # 2)))
   / 10)%Q.

(** The issues list of the store, empty when the key or the list is
    missing or the entry cannot be parsed. *)
Definition stored_issues (b : Browser) : list Issue.t :=
  match Storage.issuesData (storage b) with
  | Some (Storage.Json d) => default [] (Storage.issues d)
  | _ => []
  end.

(** The citizens list of the store, likewise. *)
Definition stored_citizens (b : Browser) : list User.t :=
  match Storage.usersData (storage b) with
  | Some (Storage.Json d) => default [] (Storage.citizens d)
  | _ => []
  end.

(** The experience points of the session user. *)
Definition session_xp (b : Browser) : option Z :=
  JS.optional_chain (user b) User.xp_points.

(** [issue.reporter_id === user?.id], as a proposition. *)
Definition reported_by (u : option User.t) (issue : Issue.t) : Prop :=
  Some (Issue.reporter_id issue) = JS.optional_chain u User.id.

(** The store has no issues list for [data.issues] to find: the key is
    absent, or its document has no [issues] member. *)
Definition stored_issues_missing (b : Browser) : Prop :=
  Storage.issuesData (storage b) = None
  \/ Storage.issuesData (storage b)
     = Some (Storage.Json {| Storage.issues := None |}).

(** [a] is ranked no lower than [b]. *)
Definition xp_ge (a b : User.t) : Prop := User.xp_points b <= User.xp_points a.

(** The submission is well formed: the required fields are filled in and
    the human-verification box is ticked. *)
Definition well_formed (s : ReportIssue.State) : Prop :=
  ReportIssue.title s <> "" /\ ReportIssue.description s <> ""
  /\ ReportIssue.severity s <> "" /\ ReportIssue.location s <> ""
  /\ ReportIssue.verified s = true.

(** ** Sample sessions *)

Definition alice : User.t :=
  {| User.id := "u1"; User.email := "alice@example.org"; User.name := "Alice";
     User.type := citizen; User.xp_points := 120 |}.

Definition bob : User.t :=
  {| User.id := "u2"; User.email := "bob@example.org"; User.name := "Bob";
     User.type := citizen; User.xp_points := 120 |}.

Definition carol : User.t :=
  {| User.id := "u3"; User.email := "carol@example.org"; User.name := "Carol";
     User.type := citizen; User.xp_points := 300 |}.

Definition session (ls : Storage.localStorage) (u : option User.t) : Browser :=
  {| storage := ls; user := u; toasts := []; route := []; console := [] |}.

(** A browser in which nobody has reported yet: three registered citizens,
    no ["issuesData"] key. *)
Definition first_visit : Browser :=
  session
    {| Storage.issuesData := None;
       Storage.usersData :=
         Some (Storage.Json {| Storage.citizens := Some [alice; bob; carol] |}) |}
    (Some alice).

Definition sample_env : Env :=
  {| Math_random_toString := "0.7564";
     Date_toISOString := "2025-03-01T10:00:00.000Z";
     URL_createObjectURL := fun file => String.append "blob:" file |}.

Definition pothole_form (b : Browser) : ReportIssue.State :=
  {| ReportIssue.browser := b;
     ReportIssue.title := "Pothole";
     ReportIssue.description := "Deep pothole on Main Street";
     ReportIssue.severity := "high";
     ReportIssue.location := "12.97, 77.59";
     ReportIssue.image := None;
     ReportIssue.verified := true;
     ReportIssue.loading := false |}.

Definition litter_form (b : Browser) : ReportIssue.State :=
  {| ReportIssue.browser := b;
     ReportIssue.title := "Litter";
     ReportIssue.description := "Overflowing bin in the park";
     ReportIssue.severity := "low";
     ReportIssue.location := "Central Park";
     ReportIssue.image := Some "bin.jpg";
     ReportIssue.verified := true;
     ReportIssue.loading := false |}.

(** ** The rating in binary64 arithmetic

    The browser evaluates [calculatePriorityRating] on IEEE doubles.  This
    transcription of the same expression on primitive floats is used to
    check the exact model against it. *)

Module Binary64.

(** An array length as a double (exact below 2^53). *)
Definition of_nat (n : nat) : float := Nat.iter n (fun x => x + 1)%float 0%float.

(** [Math.min] on numbers that are not NaN. *)
Definition Math_min (x y : float) : float := if (x <? y)%float then x else y.

(** [Math.floor] for [0 <= x < 2^52]: adding and subtracting 2^52 rounds
    to an integer, which is lowered by one when it lies above [x]. *)
Definition Math_floor (x : float) : float :=
  let r := ((x + 4503599627370496) - 4503599627370496)%float in
  if (x <? r)%float then (r - 1)%float else r.

(** [Math.round] for [0 <= x < 2^52]: the fractional part [x - floor x]
    is exact, and a half or more rounds up. *)
Definition Math_round (x : float) : float :=
  let f := Math_floor x in
  if (0.5 <=? x - f)%float then (f + 1)%float else f.

Definition calculatePriorityRating (severityScore : float) (length : nat) : float :=
  let descriptionScore := Math_min (of_nat length / 100)%float 2%float in
  (Math_round ((severityScore + descriptionScore) * 10) / 10)%float.

(** The double nearest to a rating [n / 10] of the exact model. *)
Definition of_rating (q : Q) : float :=
  (of_nat (Z.to_nat (Qnum q)) / of_nat (Pos.to_nat (Qden q)))%float.

(** On a description of [length] characters the two computations give
    the same number, for each of the three severities. *)
Definition agrees (length : nat) : bool :=
  forallb
    (fun sev =>
       PrimFloat.eqb
         (calculatePriorityRating
            (match sev with low => 1 | medium => 2 | high => 3 end)%float
            length)
         (of_rating
            (ReportIssue.calculatePriorityRating (severity_name sev)
               (JS.String_repeat "x" length))))
    [low; medium; high].

End Binary64.

(** ** The other handlers of the report form *)

Module ReportForm.

(** [navigator.geolocation], and what [getCurrentPosition] calls back
    with; the coordinates are given as the template literal prints them. *)
Inductive Geolocation : Type :=
| Unsupported                              (* navigator.geolocation is undefined *)
| Position (latitude longitude : string)   (* the success callback *)
| PositionError.                           (* the error callback *)

Definition location_captured : Toast.t :=
  {| Toast.variant := None;
     Toast.title := "Location captured";
     Toast.description := "Your current location has been recorded" |}.

Definition location_error : Toast.t :=
  {| Toast.variant := Some "destructive";
     Toast.title := "Location error";
     Toast.description := "Failed to get your location. Please try again." |}.

Definition geolocation_not_supported : Toast.t :=
  {| Toast.variant := Some "destructive";
     Toast.title := "Geolocation not supported";
     Toast.description := "Your browser doesn't support geolocation" |}.

Definition setTitle (value : string) (s : ReportIssue.State) : ReportIssue.State :=
  {| ReportIssue.browser := ReportIssue.browser s;
     ReportIssue.title := value;
     ReportIssue.description := ReportIssue.description s;
     ReportIssue.severity := ReportIssue.severity s;
     ReportIssue.location := ReportIssue.location s;
     ReportIssue.image := ReportIssue.image s;
     ReportIssue.verified := ReportIssue.verified s;
     ReportIssue.loading := ReportIssue.loading s |}.

Definition setDescription (value : string) (s : ReportIssue.State) : ReportIssue.State :=
  {| ReportIssue.browser := ReportIssue.browser s;
     ReportIssue.title := ReportIssue.title s;
     ReportIssue.description := value;
     ReportIssue.severity := ReportIssue.severity s;
     ReportIssue.location := ReportIssue.location s;
     ReportIssue.image := ReportIssue.image s;
     ReportIssue.verified := ReportIssue.verified s;
     ReportIssue.loading := ReportIssue.loading s |}.

Definition setSeverity (value : string) (s : ReportIssue.State) : ReportIssue.State :=
  {| ReportIssue.browser := ReportIssue.browser s;
     ReportIssue.title := ReportIssue.title s;
     ReportIssue.description := ReportIssue.description s;
     ReportIssue.severity := value;
     ReportIssue.location := ReportIssue.location s;
     ReportIssue.image := ReportIssue.image s;
     ReportIssue.verified := ReportIssue.verified s;
     ReportIssue.loading := ReportIssue.loading s |}.

Definition setLocation (value : string) (s : ReportIssue.State) : ReportIssue.State :=
  {| ReportIssue.browser := ReportIssue.browser s;
     ReportIssue.title := ReportIssue.title s;
     ReportIssue.description := ReportIssue.description s;
     ReportIssue.severity := ReportIssue.severity s;
     ReportIssue.location := value;
     ReportIssue.image := ReportIssue.image s;
     ReportIssue.verified := ReportIssue.verified s;
     ReportIssue.loading := ReportIssue.loading s |}.

Definition setImage (file : File) (s : ReportIssue.State) : ReportIssue.State :=
  {| ReportIssue.browser := ReportIssue.browser s;
     ReportIssue.title := ReportIssue.title s;
     ReportIssue.description := ReportIssue.description s;
     ReportIssue.severity := ReportIssue.severity s;
     ReportIssue.location := ReportIssue.location s;
     ReportIssue.image := Some file;
     ReportIssue.verified := ReportIssue.verified s;
     ReportIssue.loading := ReportIssue.loading s |}.

Definition setVerified (checked : bool) (s : ReportIssue.State) : ReportIssue.State :=
  {| ReportIssue.browser := ReportIssue.browser s;
     ReportIssue.title := ReportIssue.title s;
     ReportIssue.description := ReportIssue.description s;
     ReportIssue.severity := ReportIssue.severity s;
     ReportIssue.location := ReportIssue.location s;
     ReportIssue.image := ReportIssue.image s;
     ReportIssue.verified := checked;
     ReportIssue.loading := ReportIssue.loading s |}.

(** The template literal [`${latitude}, ${longitude}`]. *)
Definition coordinates (latitude longitude : string) : string :=
  String.append latitude (String.append ", " longitude).

(** [getLocation], run together with the callback the browser answers
    with. *)
Definition getLocation (geo : Geolocation) (s : ReportIssue.State) : ReportIssue.State :=
  match geo with
  | Position latitude longitude =>
      ReportIssue.on_browser (toast location_captured)
        (setLocation (coordinates latitude longitude) s)
  | PositionError =>
      ReportIssue.on_browser (toast location_error)
        (ReportIssue.on_browser (console_error "Error getting location:") s)
  | Unsupported =>
      ReportIssue.on_browser (toast geolocation_not_supported) s
  end.

(** The form together with the [imagePreview] variable. *)
Record State : Type := mkState {
  form : ReportIssue.State;
  imagePreview : option string
}.

Definition on_form (f : ReportIssue.State -> ReportIssue.State) (s : State) : State :=
  {| form := f (form s); imagePreview := imagePreview s |}.

Definition setImagePreview (result : option string) (s : State) : State :=
  {| form := form s; imagePreview := result |}.

(** [e.target.files?.[0]]: [files] may be null, and the list empty. *)
Definition first_file (files : option (list File)) : option File :=
  match files with
  | Some (file :: _) => Some file
  | _ => None
  end.

(** [handleImageUpload] up to the start of the read. *)
Definition handleImageUpload (files : option (list File)) (s : State) : State :=
  match first_file files with
  | Some file => on_form (setImage file) s
  | None => s
  end.

(** [reader.onloadend], with [reader.result] ([null] after a failed
    read). *)
Definition onloadend (result : option string) (s : State) : State :=
  setImagePreview result s.

(** [disabled={loading || !verified}] of the submit button. *)
Definition submit_disabled (s : State) : bool :=
  ReportIssue.loading (form s) || negb (ReportIssue.verified (form s)).

(** The component as first rendered. *)
Definition initial (b : Browser) : State :=
  {| form := {| ReportIssue.browser := b;
                ReportIssue.title := "";
                ReportIssue.description := "";
                ReportIssue.severity := "";
                ReportIssue.location := "";
                ReportIssue.image := None;
                ReportIssue.verified := false;
                ReportIssue.loading := false |};
     imagePreview := None |}.

(** What can happen to the rendered form.  The severity select offers the
    three items low, medium and high; the location has no input of its own
    and is set by [getLocation] only.  [Submit] stands for the form's
    [onSubmit] whether or not the browser would have let the event
    through. *)
Inductive Event : Type :=
| ChangeTitle (value : string)
| ChangeDescription (value : string)
| SelectSeverity (value : Severity)
| CaptureLocation (geo : Geolocation)
| ChooseImage (files : option (list File))
| ReaderLoadEnd (result : option string)
| CheckVerified (checked : bool)
| Submit (env : Env)
| Cancel.

Definition step (e : Event) (s : State) : State :=
  match e with
  | ChangeTitle value => on_form (setTitle value) s
  | ChangeDescription value => on_form (setDescription value) s
  | SelectSeverity value => on_form (setSeverity (severity_name value)) s
  | CaptureLocation geo => on_form (getLocation geo) s
  | ChooseImage files => handleImageUpload files s
  | ReaderLoadEnd result => onloadend result s
  | CheckVerified checked => on_form (setVerified checked) s
  | Submit env => on_form (ReportIssue.handleSubmit env) s
  | Cancel => on_form (ReportIssue.on_browser (navigate "/citizen/dashboard")) s
  end.

Definition run (events : list Event) (s : State) : State :=
  fold_left (fun s e => step e s) events s.

End ReportForm.

(** An issue as the form can create it for the session user [u]. *)
Definition from_form (u : option User.t) (issue : Issue.t) : Prop :=
  Issue.status issue = "pending"
  /\ (exists sev : Severity, Issue.severity issue = severity_name sev)
  /\ Issue.title issue <> ""
  /\ Issue.description issue <> ""
  /\ (exists latitude longitude : string,
        Issue.location issue = ReportForm.coordinates latitude longitude)
  /\ Issue.solver_id issue = None
  /\ Issue.solution_image_url issue = None
  /\ Issue.solved_at issue = None
  /\ reported_by u issue.

(** What every reachable state of the form satisfies, [b] being the
    browser session the form was opened in. *)
Definition form_inv (b : Browser) (s : ReportForm.State) : Prop :=
  (ReportIssue.severity (ReportForm.form s) = ""
   \/ exists sev : Severity,
        ReportIssue.severity (ReportForm.form s) = severity_name sev)
  /\ (ReportIssue.location (ReportForm.form s) = ""
      \/ exists latitude longitude : string,
           ReportIssue.location (ReportForm.form s)
           = ReportForm.coordinates latitude longitude)
  /\ JS.optional_chain (user (ReportIssue.browser (ReportForm.form s))) User.id
     = JS.optional_chain (user b) User.id
  /\ exists new : list Issue.t,
       stored_issues (ReportIssue.browser (ReportForm.form s))
       = stored_issues b ++ new
       /\ Forall (from_form (user b)) new
       /\ session_xp (ReportIssue.browser (ReportForm.form s))
          = (fun xp => xp + 50 * Z.of_nat (length new)) <$> session_xp b.

(** ** The rest of the dashboard *)

Module DashboardView.

(** The dashboard together with the [selectedIssue] variable. *)
Record State : Type := mkState {
  data : CitizenDashboard.State;
  selectedIssue : option Issue.t
}.

Definition on_data (f : CitizenDashboard.State -> CitizenDashboard.State)
    (s : State) : State :=
  {| data := f (data s); selectedIssue := selectedIssue s |}.

Definition setSelectedIssue (issue : option Issue.t) (s : State) : State :=
  {| data := data s; selectedIssue := issue |}.

Definition mount (b : Browser) : State :=
  {| data := CitizenDashboard.mount b; selectedIssue := None |}.

(** [issue.status === "solved" || issue.status === "rejected"]. *)
Definition resolved (issue : Issue.t) : bool :=
  String.eqb (Issue.status issue) "solved"
  || String.eqb (Issue.status issue) "rejected".

(** The [onClick] of an issue card. *)
Definition onCardClick (issue : Issue.t) (s : State) : State :=
  if resolved issue then setSelectedIssue (Some issue) s else s.

(** The [onOpenChange] of the dialog. *)
Definition onOpenChange (s : State) : State := setSelectedIssue None s.

(** [open={!!selectedIssue}]. *)
Definition dialog_open (s : State) : bool :=
  match selectedIssue s with
  | Some _ => true
  | None => false
  end.

(** The text of [DialogTitle]. *)
Definition DialogTitle (s : State) : string :=
  if JS.strict_eq "solved" (JS.optional_chain (selectedIssue s) Issue.status)
  then "Solved Issue" else "Rejected Issue".

(** Truthiness of a [string | null]. *)
Definition truthy_url (url : option string) : bool :=
  match url with
  | Some src => JS.truthy src
  | None => false
  end.

(** What the dialog shows below its title. *)
Inductive DialogPart : Type :=
| Heading (text : string)           (* the h3 with the issue title *)
| XPDeducted                        (* "XP Points Deducted: -10" *)
| SubmittedImage (src : option string)
| SolutionImage (src : option string)
| CloseButton.

Definition DialogBody (s : State) : list DialogPart :=
  match selectedIssue s with
  | None => []
  | Some issue =>
      [Heading (Issue.title issue)]
      ++ (if String.eqb (Issue.status issue) "rejected"
          then XPDeducted
               :: (if truthy_url (Issue.image_url issue)
                   then [SubmittedImage (Issue.image_url issue)] else [])
          else [])
      ++ (if String.eqb (Issue.status issue) "solved"
             && truthy_url (Issue.solution_image_url issue)
          then [SolutionImage (Issue.solution_image_url issue)] else [])
      ++ [CloseButton]
  end.

(** The card of an issue in "My Reports" (the date line is left out). *)
Record Card : Type := mkCard {
  card_title : string;
  status_text : string;
  status_class : string;
  xp_note : bool;                   (* the "(-10 XP)" span *)
  severity_text : string;
  severity_class : string;
  clickable : bool                  (* the cursor-pointer classes *)
}.

Definition render_card (issue : Issue.t) : Card :=
  {| card_title := Issue.title issue;
     status_text := Issue.status issue;
     status_class :=
       if String.eqb (Issue.status issue) "solved" then "text-green-600"
       else if String.eqb (Issue.status issue) "rejected" then "text-red-600"
       else "text-yellow-600";
     xp_note := String.eqb (Issue.status issue) "rejected";
     severity_text := Issue.severity issue;
     severity_class :=
       if String.eqb (Issue.severity issue) "high"
       then "bg-red-100 text-red-800"
       else if String.eqb (Issue.severity issue) "medium"
       then "bg-yellow-100 text-yellow-800"
       else "bg-green-100 text-green-800";
     clickable := resolved issue |}.

(** The number on the "Total Reports" card. *)
Definition total_reports (s : State) : nat :=
  length (CitizenDashboard.issues (data s)).

(** What can happen to the mounted dashboard: a click on the card at
    [index] of the list shown, the dialog closing, and the effect running
    again. *)
Inductive Event : Type :=
| ClickCard (index : nat)
| OpenChange
| Effect.

Definition step (e : Event) (s : State) : State :=
  match e with
  | ClickCard index =>
      match CitizenDashboard.issues (data s) !! index with
      | Some issue => onCardClick issue s
      | None => s
      end
  | OpenChange => onOpenChange s
  | Effect => on_data CitizenDashboard.fetchIssues s
  end.

Definition run (events : list Event) (s : State) : State :=
  fold_left (fun s e => step e s) events s.

End DashboardView.

(** The severity score inside [calculatePriorityRating], as an integer. *)
Definition severity_tier (severity : string) : Z :=
  if String.eqb severity "high" then 3
  else if String.eqb severity "medium" then 2 else 1.

(** The array [data.issues] evaluates to, if the entry parses and has
    one; likewise [storedData.citizens]. *)
Definition issues_list (b : Browser) : option (list Issue.t) :=
  match Storage.issuesData (storage b) with
  | Some (Storage.Json d) => Storage.issues d
  | _ => None
  end.

Definition citizens_list (b : Browser) : option (list User.t) :=
  match Storage.usersData (storage b) with
  | Some (Storage.Json d) => Storage.citizens d
  | _ => None
  end.

(** The issue in the detail dialog, if any, is solved or rejected. *)
Definition selection_resolved (s : DashboardView.State) : Prop :=
  forall issue,
    DashboardView.selectedIssue s = Some issue ->
    DashboardView.resolved issue = true.

(** [calculatePriorityRating] on doubles, from the two strings. *)
Definition Binary64_rating (severity description : string) : float :=
  Binary64.calculatePriorityRating
    (if String.eqb severity "high" then 3
     else if String.eqb severity "medium" then 2 else 1)%float
    (String.length description).

(** A report of Alice's that an external workflow has rejected, and a
    session whose store holds it. *)
Definition rejected_report : Issue.t :=
  {| Issue.id := "0.1183";
     Issue.title := "Broken street light";
     Issue.description := "The light at the corner is out";
     Issue.status := "rejected";
     Issue.severity := "medium";
     Issue.location := "12.97, 77.59";
     Issue.reporter_id := "u1";
     Issue.image_url := Some "blob:light.jpg";
     Issue.created_at := "2025-02-01T08:00:00.000Z";
     Issue.solver_id := Some "n1";
     Issue.solution_image_url := None;
     Issue.solved_at := Some "2025-02-03T09:30:00.000Z";
     Issue.priorityRating := 23 # 10 |}.

Definition later_visit : Browser :=
  session
    {| Storage.issuesData :=
         Some (Storage.Json {| Storage.issues := Some [rejected_report] |});
       Storage.usersData :=
         Some (Storage.Json {| Storage.citizens := Some [alice; bob; carol] |}) |}
    (Some alice).

(** * Priority rating *)

Section PriorityRating.
Import ReportIssue.

Lemma length_String_repeat_x (n : nat) :
  String.length (JS.String_repeat "x" n) = n.
Proof. induction n as [|n IH]; simpl; [reflexivity | f_equal; exact IH]. Qed.

(** The rating grows with the capped description score. *)
Lemma rating_le_of_score (sev d1 d2 : string) :
  (JS.Math_min (inject_Z (Z.of_nat (String.length d1)) / 100) 2
   <= JS.Math_min (inject_Z (Z.of_nat (String.length d2)) / 100) 2)%Q ->
  (calculatePriorityRating sev d1 <= calculatePriorityRating sev d2)%Q.
Proof.
  intros Hle. unfold calculatePriorityRating, JS.Math_round, Qdiv.
  apply Qmult_le_compat_r; [| discriminate].
  rewrite <- Zle_Qle. apply Qfloor_resp_le.
  apply Qplus_le_compat; [| apply Qle_refl].
  apply Qmult_le_compat_r; [| discriminate].
  apply Qplus_le_compat; [apply Qle_refl | exact Hle].
Qed.

Lemma length_score_le (n m : nat) :
  (n <= m)%nat ->
  (inject_Z (Z.of_nat n) / 100 <= inject_Z (Z.of_nat m) / 100)%Q.
Proof.
  intros Hnm. unfold Qdiv. apply Qmult_le_compat_r; [| discriminate].
  rewrite <- Zle_Qle. lia.
Qed.

Lemma rating_mono_length (sev d1 d2 : string) :
  (String.length d1 <= String.length d2)%nat ->
  (calculatePriorityRating sev d1 <= calculatePriorityRating sev d2)%Q.
Proof.
  intros Hle. apply rating_le_of_score. unfold JS.Math_min.
  apply Q.min_le_compat_r. now apply length_score_le.
Qed.

Lemma capped_score (d : string) :
  (200 <= String.length d)%nat ->
  (JS.Math_min (inject_Z (Z.of_nat (String.length d)) / 100) 2 == 2)%Q.
Proof.
  intros Hlen. unfold JS.Math_min. apply Q.min_r.
  apply Qle_shift_div_l; [reflexivity |].
  change (2 * 100)%Q with (inject_Z 200). rewrite <- Zle_Qle. lia.
Qed.

Lemma rating_capped (sev d1 d2 : string) :
  (200 <= String.length d1)%nat -> (200 <= String.length d2)%nat ->
  (calculatePriorityRating sev d1 == calculatePriorityRating sev d2)%Q.
Proof.
  intros H1 H2.
  apply Qle_antisym; apply rating_le_of_score;
    rewrite !capped_score by assumption; apply Qle_refl.
Qed.

End PriorityRating.

Section PriorityRatingClaims.
Import ReportIssue.

Lemma length_score_fraction (n : nat) :
  (inject_Z (Z.of_nat n) / 100 == Z.of_nat n # 100)%Q.
Proof. unfold Qdiv, Qeq; simpl. lia. Qed.

(** C3: for each of the three severities and every description,
    [calculatePriorityRating] equals the reference definition (severity
    table, description length over 100 capped at 2, sum rounded to one
    decimal place); the three sample values are 3.0, 1.0 and 2.5. *)
Theorem C3_rating_equals_reference :
  (forall (sev : Severity) (description : string),
      calculatePriorityRating (severity_name sev) description
      == score_reference sev description)%Q
  /\ (calculatePriorityRating "high" "" == 3)%Q
  /\ (calculatePriorityRating "low" "" == 1)%Q
  /\ (calculatePriorityRating "medium" (JS.String_repeat "x" 50) == 25 # 10)%Q.
Proof.
  split; [| repeat split; reflexivity].
  intros sev description.
  unfold calculatePriorityRating, score_reference, JS.Math_round, JS.Math_min.
  pose proof (length_score_fraction (String.length description)) as Hfrac.
  assert (Hmin : (Qmin (inject_Z (Z.of_nat (String.length description)) / 100) 2
                  == Qmin (Z.of_nat (String.length description) # 100) 2)%Q).
  { apply Q.min_compat; [exact Hfrac | reflexivity]. }
  destruct sev; cbn [severity_name String.eqb Ascii.eqb Bool.eqb];
    rewrite Hmin; reflexivity.
Qed.

(** C4: for each of the three severities the rating of ["x".repeat(L)]
    never decreases when [L] grows, and it is the same for every
    [L >= 200]. *)
Theorem C4_rating_monotone_then_capped (sev : Severity) :
  (forall L1 L2 : nat,
      (L1 <= L2)%nat ->
      (calculatePriorityRating (severity_name sev) (JS.String_repeat "x" L1)
       <= calculatePriorityRating (severity_name sev) (JS.String_repeat "x" L2))%Q)
  /\ (forall L : nat,
        (200 <= L)%nat ->
        (calculatePriorityRating (severity_name sev) (JS.String_repeat "x" L)
         == calculatePriorityRating (severity_name sev) (JS.String_repeat "x" 200))%Q).
Proof.
  split.
  - intros L1 L2 Hle. apply rating_mono_length.
    now rewrite !length_String_repeat_x.
  - intros L HL. apply rating_capped; rewrite length_String_repeat_x; lia.
Qed.

Lemma C4_rating_monotone_then_capped_witness :
  (calculatePriorityRating "medium" (JS.String_repeat "x" 50)
   <= calculatePriorityRating "medium" (JS.String_repeat "x" 150))%Q
  /\ (calculatePriorityRating "medium" (JS.String_repeat "x" 300)
      == calculatePriorityRating "medium" (JS.String_repeat "x" 200))%Q.
Proof.
  split.
  - apply (proj1 (C4_rating_monotone_then_capped medium) 50%nat 150%nat). lia.
  - apply (proj2 (C4_rating_monotone_then_capped medium) 300%nat). lia.
Defined.

(** C10: a severity string other than ["high"] and ["medium"] gets
    severity score 1, so the rating is the one of ["low"] for the same
    description; no severity string is rejected. *)
Theorem C10_other_severity_scores_as_low (severity description : string) :
  severity <> "high" -> severity <> "medium" ->
  calculatePriorityRating severity description
  = (JS.Math_round
       ((1 + JS.Math_min
               (inject_Z (Z.of_nat (String.length description)) / 100) 2) * 10)
     / 10)%Q
  /\ calculatePriorityRating severity description
     = calculatePriorityRating "low" description.
Proof.
  intros Hhigh Hmedium. unfold calculatePriorityRating.
  apply String.eqb_neq in Hhigh, Hmedium. rewrite Hhigh, Hmedium.
  split; reflexivity.
Qed.

Lemma C10_other_severity_scores_as_low_witness :
  calculatePriorityRating "urgent" "pothole"
  = calculatePriorityRating "low" "pothole"
  /\ calculatePriorityRating "" "pothole"
     = calculatePriorityRating "low" "pothole".
Proof.
  split.
  - apply (C10_other_severity_scores_as_low "urgent" "pothole"); discriminate.
  - apply (C10_other_severity_scores_as_low "" "pothole"); discriminate.
Defined.

End PriorityRatingClaims.

(** * Array.prototype.sort *)

Section ArraySort.
Context {A : Type} (comparefn : A -> A -> Z).

Lemma sort_insert_perm (x : A) (l : list A) :
  JS.sort_insert comparefn x l ≡ₚ x :: l.
Proof.
  induction l as [|y l IH]; simpl; [reflexivity |].
  destruct (0 <? comparefn x y); [| reflexivity].
  rewrite IH. apply Permutation_swap.
Qed.

Lemma Array_sort_perm (l : list A) : JS.Array_sort comparefn l ≡ₚ l.
Proof.
  induction l as [|x l IH]; simpl; [reflexivity |].
  rewrite sort_insert_perm. now rewrite IH.
Qed.

Lemma Array_sort_length (l : list A) :
  length (JS.Array_sort comparefn l) = length l.
Proof. apply Permutation_length, Array_sort_perm. Qed.

(** Stability: an element is inserted in front of everything it does
    not compare greater than, so elements sharing a key [k x] that the
    comparator cannot strictly order keep their relative order. *)
Context {K : Type} `{EqDecision K} (k : A -> K).
Hypothesis comparefn_key : forall x y, 0 < comparefn x y -> k x <> k y.

Lemma sort_insert_stable (v : K) (x : A) (l : list A) :
  filter (fun a => k a = v) (JS.sort_insert comparefn x l)
  = filter (fun a => k a = v) (x :: l).
Proof.
  induction l as [|y l IH]; simpl; [reflexivity |].
  destruct (0 <? comparefn x y) eqn:Hcmp; [| reflexivity].
  apply Z.ltb_lt, comparefn_key in Hcmp.
  rewrite (filter_cons _ y), IH, !(filter_cons _ x), (filter_cons _ y).
  repeat case_decide; congruence.
Qed.

Lemma Array_sort_stable (v : K) (l : list A) :
  filter (fun a => k a = v) (JS.Array_sort comparefn l)
  = filter (fun a => k a = v) l.
Proof.
  induction l as [|x l IH]; simpl; [reflexivity |].
  rewrite sort_insert_stable, !(filter_cons _ x), IH. reflexivity.
Qed.

End ArraySort.

Lemma StronglySorted_app_le {A} (R : A -> A -> Prop) (l1 l2 : list A) :
  StronglySorted R (l1 ++ l2) ->
  StronglySorted R l1 /\ forall a b, a ∈ l1 -> b ∈ l2 -> R a b.
Proof.
  induction l1 as [|x l1 IH]; simpl; intros Hs.
  - split; [constructor |]. intros a b Ha. inversion Ha.
  - apply StronglySorted_inv in Hs as [Hs Hx].
    destruct (IH Hs) as [Hs1 Hcross].
    apply Forall_app in Hx as [Hx1 Hx2]. split.
    + now constructor.
    + intros a b Ha Hb. apply elem_of_cons in Ha as [-> | Ha].
      * rewrite Forall_forall in Hx2. now apply Hx2.
      * now apply Hcross.
Qed.

(** * The leaderboard *)

Section Leaderboard.
Import CitizenDashboard.

Lemma sort_insert_by_xp_sorted (x : User.t) (l : list User.t) :
  StronglySorted xp_ge l ->
  StronglySorted xp_ge (JS.sort_insert by_xp_descending x l).
Proof.
  induction 1 as [|y l Hs IH Hy]; simpl.
  - repeat constructor.
  - unfold by_xp_descending at 1.
    destruct (0 <? User.xp_points y - User.xp_points x) eqn:Hcmp.
    + apply Z.ltb_lt in Hcmp. constructor; [exact IH |].
      rewrite sort_insert_perm. constructor; [unfold xp_ge; lia | exact Hy].
    + apply Z.ltb_ge in Hcmp. constructor; [now constructor |].
      constructor; [unfold xp_ge; lia |].
      eapply Forall_impl; [exact Hy |]. unfold xp_ge. intros z Hz. lia.
Qed.

Lemma Array_sort_by_xp_sorted (l : list User.t) :
  StronglySorted xp_ge (JS.Array_sort by_xp_descending l).
Proof.
  induction l as [|x l IH]; simpl; [constructor |].
  now apply sort_insert_by_xp_sorted.
Qed.

Lemma by_xp_descending_key (x y : User.t) :
  0 < by_xp_descending x y -> User.xp_points x <> User.xp_points y.
Proof. unfold by_xp_descending. lia. Qed.

Lemma sortedCitizens_take (l : list User.t) :
  sortedCitizens l = take 5 (JS.Array_sort by_xp_descending l).
Proof. reflexivity. Qed.

End Leaderboard.

(** * Reading the dashboard *)

Section Dashboard.
Import CitizenDashboard.

Lemma strict_eq_true (s : string) (o : option string) :
  JS.strict_eq s o = true <-> Some s = o.
Proof.
  destruct o as [t|]; simpl; [| split; discriminate].
  rewrite String.eqb_eq. split; congruence.
Qed.

(** Every issue shown was reported by the session user. *)
Lemma userIssues_Forall (u : option User.t) (l : list Issue.t) :
  Forall (reported_by u) (userIssues u l).
Proof.
  unfold userIssues, JS.Array_filter.
  induction l as [|x l IH]; simpl; [constructor |].
  destruct (JS.strict_eq _ _) eqn:Heq; [| exact IH].
  constructor; [| exact IH]. now apply strict_eq_true.
Qed.

Lemma userIssues_sublist (u : option User.t) (l : list Issue.t) :
  userIssues u l `sublist_of` l.
Proof.
  unfold userIssues, JS.Array_filter.
  induction l as [|x l IH]; simpl; [constructor |].
  destruct (JS.strict_eq _ _); now constructor.
Qed.

Lemma userIssues_greatest (u : option User.t) (r l : list Issue.t) :
  r `sublist_of` l -> Forall (reported_by u) r -> r `sublist_of` userIssues u l.
Proof.
  unfold userIssues, JS.Array_filter.
  induction 1 as [|x r l Hsub IH|x r l Hsub IH]; intros Hall; simpl.
  - constructor.
  - apply Forall_cons in Hall as [Hx Hall].
    apply strict_eq_true in Hx. rewrite Hx. constructor. now apply IH.
  - destruct (JS.strict_eq _ _); [constructor |]; now apply IH.
Qed.

Lemma userIssues_elem_of (u : option User.t) (l : list Issue.t) (x : Issue.t) :
  x ∈ userIssues u l <-> x ∈ l /\ reported_by u x.
Proof.
  unfold userIssues, JS.Array_filter.
  rewrite !list_elem_of_In, filter_In, strict_eq_true. reflexivity.
Qed.

(** [fetchIssues] only reads the session. *)
Lemma fetchIssues_reads_only (s : State) :
  storage (browser (fetchIssues s)) = storage (browser s)
  /\ user (browser (fetchIssues s)) = user (browser s).
Proof.
  destruct s as [[[i d] u t r c] shown top].
  unfold fetchIssues, fetch_body, JS.try_catch, JS.bind, JS.get, JS.modify;
    simpl.
  destruct i as [[|[[l|]]]|]; simpl; auto.
  all: destruct d as [[|[[cs|]]]|]; simpl; auto.
Qed.

(** When the issues list is there, the list shown is the filtered one,
    whatever becomes of the leaderboard. *)
Lemma fetchIssues_issues (s : State) (l : list Issue.t) :
  Storage.issuesData (storage (browser s))
  = Some (Storage.Json {| Storage.issues := Some l |}) ->
  issues (fetchIssues s) = userIssues (user (browser s)) l.
Proof.
  destruct s as [[[i d] u t r c] shown top]; simpl. intros ->.
  unfold fetchIssues, fetch_body, JS.try_catch, JS.bind, JS.get, JS.modify;
    simpl.
  destruct d as [[|[[cs|]]]|]; reflexivity.
Qed.

(** When both lists are there, the leaderboard shown is
    [sortedCitizens]. *)
Lemma fetchIssues_topCitizens (s : State) (l : list Issue.t) (cs : list User.t) :
  Storage.issuesData (storage (browser s))
  = Some (Storage.Json {| Storage.issues := Some l |}) ->
  Storage.usersData (storage (browser s))
  = Some (Storage.Json {| Storage.citizens := Some cs |}) ->
  topCitizens (fetchIssues s) = sortedCitizens cs.
Proof.
  destruct s as [[[i d] u t r c] shown top]; simpl. intros -> ->. reflexivity.
Qed.

(** Running the effect again on an unchanged store shows the same
    lists. *)
Lemma fetchIssues_idempotent (s : State) :
  issues (fetchIssues (fetchIssues s)) = issues (fetchIssues s)
  /\ topCitizens (fetchIssues (fetchIssues s)) = topCitizens (fetchIssues s).
Proof.
  destruct s as [[[i d] u t r c] shown top].
  unfold fetchIssues, fetch_body, JS.try_catch, JS.bind, JS.get, JS.modify;
    simpl.
  destruct i as [[|[[l|]]]|]; simpl; auto.
  all: destruct d as [[|[[cs|]]]|]; simpl; auto.
Qed.

(** Nothing escapes the [catch], and on a freshly mounted dashboard a
    missing issues list leaves both lists empty. *)
Lemma fetchIssues_mount_missing_issues (b : Browser) :
  stored_issues_missing b ->
  issues (fetchIssues (mount b)) = []
  /\ topCitizens (fetchIssues (mount b)) = [].
Proof.
  destruct b as [[i d] u t r c]. unfold stored_issues_missing; simpl.
  intros [-> | ->]; split; reflexivity.
Qed.

(** C6: when the store holds an issues list, the list the dashboard
    shows for the session user consists of issues reported by that user
    only, is a subsequence of the stored list (original order), contains
    every such subsequence (nothing of the user's is left out), and is
    the same when the effect runs again on the unchanged store. *)
Theorem C6_user_issues_filtered_in_order (s : State) (l : list Issue.t) :
  Storage.issuesData (storage (browser s))
  = Some (Storage.Json {| Storage.issues := Some l |}) ->
  (forall x, x ∈ issues (fetchIssues s)
             <-> x ∈ l /\ reported_by (user (browser s)) x)
  /\ issues (fetchIssues s) `sublist_of` l
  /\ (forall r, r `sublist_of` l -> Forall (reported_by (user (browser s))) r ->
                r `sublist_of` issues (fetchIssues s))
  /\ issues (fetchIssues (fetchIssues s)) = issues (fetchIssues s)
  /\ storage (browser (fetchIssues s)) = storage (browser s).
Proof.
  intros Hstore. rewrite (fetchIssues_issues s l Hstore).
  split; [intros x; apply userIssues_elem_of |].
  split; [apply userIssues_sublist |].
  split; [intros r; apply userIssues_greatest |].
  split; [| apply fetchIssues_reads_only].
  rewrite <- (fetchIssues_issues s l Hstore). apply fetchIssues_idempotent.
Qed.

End Dashboard.

Section DashboardClaims.
Import CitizenDashboard.

(** C5: the leaderboard holds at most five users (five, or all of them
    when there are fewer), in descending order of experience points; it
    is the front of a rearrangement of the stored citizens in which users
    with equal points keep their stored order and nobody left out ranks
    above anybody shown; computing it leaves [localStorage] as it was. *)
Theorem C5_leaderboard_top5_sorted_stable (citizens : list User.t) :
  (length (sortedCitizens citizens) <= 5)%nat
  /\ length (sortedCitizens citizens) = Nat.min 5 (length citizens)
  /\ StronglySorted xp_ge (sortedCitizens citizens)
  /\ (exists rest : list User.t,
        sortedCitizens citizens ++ rest ≡ₚ citizens
        /\ (forall a b, a ∈ sortedCitizens citizens -> b ∈ rest -> xp_ge a b)
        /\ forall v : Z,
             filter (fun u => User.xp_points u = v)
               (sortedCitizens citizens ++ rest)
             = filter (fun u => User.xp_points u = v) citizens)
  /\ forall s : State,
       storage (browser (fetchIssues s)) = storage (browser s)
       /\ forall l : list Issue.t,
            Storage.issuesData (storage (browser s))
            = Some (Storage.Json {| Storage.issues := Some l |}) ->
            Storage.usersData (storage (browser s))
            = Some (Storage.Json {| Storage.citizens := Some citizens |}) ->
            topCitizens (fetchIssues s) = sortedCitizens citizens.
Proof.
  rewrite sortedCitizens_take.
  pose proof (Array_sort_by_xp_sorted citizens) as Hsorted.
  rewrite <- (take_drop 5 (JS.Array_sort by_xp_descending citizens)) in Hsorted.
  apply StronglySorted_app_le in Hsorted as [Htop Hcross].
  assert (Hlen : length (take 5 (JS.Array_sort by_xp_descending citizens))
                 = Nat.min 5 (length citizens)).
  { now rewrite length_take, Array_sort_length. }
  split; [rewrite Hlen; lia |].
  split; [exact Hlen |].
  split; [exact Htop |].
  split.
  - exists (drop 5 (JS.Array_sort by_xp_descending citizens)).
    rewrite take_drop. split; [apply Array_sort_perm |].
    split; [exact Hcross |].
    intros v. apply (Array_sort_stable by_xp_descending User.xp_points).
    exact by_xp_descending_key.
  - intros s. split; [apply fetchIssues_reads_only |].
    intros l Hi Hu. rewrite <- sortedCitizens_take.
    now apply (fetchIssues_topCitizens s l).
Qed.

Lemma C5_leaderboard_top5_sorted_stable_witness :
  topCitizens
    (fetchIssues
       (mount
          (session
             {| Storage.issuesData :=
                  Some (Storage.Json {| Storage.issues := Some [] |});
                Storage.usersData :=
                  Some (Storage.Json
                          {| Storage.citizens := Some [alice; bob; carol] |}) |}
             (Some bob))))
  = [carol; alice; bob].
Proof.
  destruct (C5_leaderboard_top5_sorted_stable [alice; bob; carol])
    as (_ & _ & _ & _ & Hfetch).
  destruct (Hfetch
              (mount
                 (session
                    {| Storage.issuesData :=
                         Some (Storage.Json {| Storage.issues := Some [] |});
                       Storage.usersData :=
                         Some (Storage.Json
                                 {| Storage.citizens :=
                                      Some [alice; bob; carol] |}) |}
                    (Some bob)))) as [_ Htop].
  rewrite (Htop [] eq_refl eq_refl). reflexivity.
Defined.

Lemma C6_user_issues_filtered_in_order_witness :
  issues
    (fetchIssues
       (mount
          (ReportIssue.browser
             (ReportIssue.handleSubmit sample_env (pothole_form first_visit)))))
  `sublist_of`
  [ReportIssue.newIssue sample_env (pothole_form first_visit) "u1"].
Proof.
  refine (proj1 (proj2 (C6_user_issues_filtered_in_order
           (mount
              (ReportIssue.browser
                 (ReportIssue.handleSubmit sample_env
                    (pothole_form first_visit))))
           [ReportIssue.newIssue sample_env (pothole_form first_visit) "u1"]
           _))).
  reflexivity.
Defined.

(** C7: on a first visit (no ["issuesData"] key, citizens registered)
    [data.issues.filter] throws a TypeError inside the [try] block; the
    [catch] logs it, and the leaderboard is never computed although the
    citizens list is there. *)
Theorem C7_missing_issues_list_throws :
  stored_issues_missing first_visit
  /\ snd (fetch_body (mount first_visit) (mount first_visit))
     = JS.Throw JS.TypeError
  /\ console (browser (fetchIssues (mount first_visit)))
     = ["Failed to fetch issues:"]
  /\ issues (fetchIssues (mount first_visit)) = []
  /\ topCitizens (fetchIssues (mount first_visit)) = []
  /\ stored_citizens first_visit = [alice; bob; carol].
Proof. repeat split. now left. Qed.

(** The same on the leaderboard side: a store without a citizens list
    makes the spread throw after the issues have been set. *)
Lemma missing_citizens_list_throws :
  snd (fetch_body
         (mount (session
                   {| Storage.issuesData :=
                        Some (Storage.Json {| Storage.issues := Some [] |});
                      Storage.usersData := None |} (Some alice)))
         (mount (session
                   {| Storage.issuesData :=
                        Some (Storage.Json {| Storage.issues := Some [] |});
                      Storage.usersData := None |} (Some alice))))
  = JS.Throw JS.TypeError.
Proof. reflexivity. Qed.

End DashboardClaims.

(** * Submitting a report *)

Section Submit.
Import ReportIssue.

Lemma truthy_false (s : string) : JS.truthy s = false <-> s = "".
Proof.
  unfold JS.truthy. rewrite Bool.negb_false_iff. apply String.eqb_eq.
Qed.

(** The guard of [handleSubmit] lets exactly the well-formed
    submissions through. *)
Lemma guard_false_iff (s : State) :
  negb (JS.truthy (title s)) || negb (JS.truthy (description s))
  || negb (JS.truthy (severity s)) || negb (verified s)
  || negb (JS.truthy (location s)) = false
  <-> well_formed s.
Proof.
  unfold well_formed.
  rewrite !Bool.orb_false_iff, !Bool.negb_false_iff.
  assert (Ht : forall x, JS.truthy x = true <-> x <> "").
  { intros x. rewrite <- Bool.not_false_iff_true, truthy_false. reflexivity. }
  rewrite !Ht. tauto.
Qed.

Lemma handleSubmit_rejected (env : Env) (s : State) :
  ~ well_formed s -> handleSubmit env s = on_browser (toast missing_fields) s.
Proof.
  intros Hnot. unfold handleSubmit.
  pose proof (guard_false_iff s) as Hguard.
  destruct (negb (JS.truthy (title s)) || negb (JS.truthy (description s))
            || negb (JS.truthy (severity s)) || negb (verified s)
            || negb (JS.truthy (location s))); [reflexivity |].
  exfalso. now apply Hnot, Hguard.
Qed.

Lemma or_number_plus_50 (x : Z) : JS.or_number x 0 + 50 = x + 50.
Proof.
  unfold JS.or_number. destruct (x =? 0) eqn:Hx; [| reflexivity].
  apply Z.eqb_eq in Hx. lia.
Qed.

(** The state after a submission that goes through. *)
Lemma handleSubmit_submitted (env : Env) (s : State) (u : User.t) :
  well_formed s ->
  user (browser s) = Some u ->
  Storage.issuesData (storage (browser s)) <> Some Storage.Garbled ->
  handleSubmit env s
  = {| browser :=
         {| storage :=
              {| Storage.issuesData :=
                   Some (Storage.Json
                           {| Storage.issues :=
                                Some (stored_issues (browser s)
                                      ++ [newIssue env s (User.id u)]) |});
                 Storage.usersData := Storage.usersData (storage (browser s)) |};
            user := Some {| User.id := User.id u; User.email := User.email u;
                            User.name := User.name u; User.type := User.type u;
                            User.xp_points := User.xp_points u + 50 |};
            toasts := toasts (browser s) ++ [report_submitted];
            route := route (browser s) ++ ["/citizen/dashboard"];
            console := console (browser s) |};
       title := title s; description := description s;
       severity := severity s; location := location s; image := image s;
       verified := verified s; loading := false |}.
Proof.
  intros Hwf Hu Hstore. unfold handleSubmit.
  apply guard_false_iff in Hwf. rewrite Hwf.
  destruct s as [[[i d] usr ts rt cs] t ds sv loc img v ld].
  simpl in Hu, Hstore. subst usr.
  unfold JS.try_catch_finally, JS.try_catch, submit_body, JS.bind, JS.get,
    JS.modify, JS.member, JS.ret, stored_issues.
  cbn [browser user storage Storage.issuesData setLoading].
  clear Hwf.
  destruct i as [[|[l]]|]; [congruence | |]; clear Hstore;
    cbn [Storage.parse_or_empty JS.ret JS.throw JS.optional_chain default
         from_option];
    unfold on_browser, setLoading, updateUserXP, setItem, toast, navigate, id;
    cbn [browser user storage toasts route console title description severity
         location image verified loading Storage.setItem_issuesData
         Storage.usersData Storage.issuesData Storage.issues];
    rewrite String.eqb_refl, or_number_plus_50; reflexivity.
Qed.

(** The state after a submission that fails inside the [try] block. *)
Lemma handleSubmit_failed (env : Env) (s : State) :
  well_formed s ->
  user (browser s) = None
  \/ Storage.issuesData (storage (browser s)) = Some Storage.Garbled ->
  handleSubmit env s
  = setLoading false
      (on_browser (toast submission_failed)
         (on_browser (console_error "Failed to submit report:") s)).
Proof.
  intros Hwf Hfail. unfold handleSubmit.
  apply guard_false_iff in Hwf. rewrite Hwf.
  destruct s as [[[i d] usr ts rt cs] t ds sv loc img v ld].
  simpl in Hfail.
  unfold JS.try_catch_finally, JS.try_catch, submit_body, JS.bind, JS.get,
    JS.modify, JS.member, JS.ret.
  destruct usr as [u|]; [| reflexivity].
  destruct Hfail as [Hu | ->]; [discriminate | reflexivity].
Qed.

(** The success toast is shown only when the submission went through. *)
Lemma submitted_inv (env : Env) (s : State) :
  toasts (browser (handleSubmit env s))
  = toasts (browser s) ++ [report_submitted] ->
  well_formed s
  /\ (exists u, user (browser s) = Some u)
  /\ Storage.issuesData (storage (browser s)) <> Some Storage.Garbled.
Proof.
  intros Htoast.
  destruct (decide (well_formed s)) as [Hwf | Hnot].
  - split; [exact Hwf |].
    destruct (user (browser s)) as [u|] eqn:Hu.
    + split; [now exists u |]. intros Hgarbled.
      rewrite (handleSubmit_failed env s Hwf (or_intror Hgarbled)) in Htoast.
      simpl in Htoast. apply app_inj_tail in Htoast as [_ Ht]. discriminate.
    + rewrite (handleSubmit_failed env s Hwf (or_introl Hu)) in Htoast.
      simpl in Htoast. apply app_inj_tail in Htoast as [_ Ht]. discriminate.
  - rewrite (handleSubmit_rejected env s Hnot) in Htoast.
    simpl in Htoast. apply app_inj_tail in Htoast as [_ Ht]. discriminate.
Qed.

End Submit.

Section SubmitClaims.
Import ReportIssue.

(** C1: a well-formed submission by the logged-in reporter, on a store
    that can be read, appends exactly one issue to the stored list; that
    issue is [pending] with no solver and no solution date, and the
    reporter's experience points grow by exactly 50. *)
Theorem C1_submit_appends_pending_issue_and_awards_50
    (env : Env) (s : State) (u : User.t) :
  well_formed s ->
  user (browser s) = Some u ->
  Storage.issuesData (storage (browser s)) <> Some Storage.Garbled ->
  exists issue : Issue.t,
    stored_issues (browser (handleSubmit env s))
    = stored_issues (browser s) ++ [issue]
    /\ issue = newIssue env s (User.id u)
    /\ Issue.status issue = "pending"
    /\ Issue.solver_id issue = None
    /\ Issue.solved_at issue = None
    /\ Issue.reporter_id issue = User.id u
    /\ session_xp (browser (handleSubmit env s)) = Some (User.xp_points u + 50)
    /\ JS.optional_chain (user (browser (handleSubmit env s))) User.id
       = Some (User.id u).
Proof.
  intros Hwf Hu Hstore.
  rewrite (handleSubmit_submitted env s u Hwf Hu Hstore).
  exists (newIssue env s (User.id u)). repeat split.
Qed.

Lemma C1_submit_appends_pending_issue_and_awards_50_witness :
  exists issue : Issue.t,
    stored_issues
      (browser (handleSubmit sample_env (pothole_form first_visit)))
    = stored_issues (browser (pothole_form first_visit)) ++ [issue]
    /\ issue = newIssue sample_env (pothole_form first_visit) (User.id alice)
    /\ Issue.status issue = "pending"
    /\ Issue.solver_id issue = None
    /\ Issue.solved_at issue = None
    /\ Issue.reporter_id issue = User.id alice
    /\ session_xp
         (browser (handleSubmit sample_env (pothole_form first_visit)))
       = Some (User.xp_points alice + 50)
    /\ JS.optional_chain
         (user (browser (handleSubmit sample_env (pothole_form first_visit))))
         User.id
       = Some (User.id alice).
Proof.
  apply (C1_submit_appends_pending_issue_and_awards_50 sample_env
           (pothole_form first_visit) alice).
  - repeat split; discriminate.
  - reflexivity.
  - discriminate.
Defined.

(** C2: when a required field is empty or the verification box is not
    ticked, [handleSubmit] only shows the destructive "Missing fields"
    toast: [localStorage] (so the stored issues) and the session user (so
    the experience points) are what they were. *)
Theorem C2_incomplete_submission_rejected (env : Env) (s : State) :
  title s = "" \/ description s = "" \/ severity s = "" \/ location s = ""
  \/ verified s = false ->
  handleSubmit env s = on_browser (toast missing_fields) s
  /\ toasts (browser (handleSubmit env s))
     = toasts (browser s) ++ [missing_fields]
  /\ storage (browser (handleSubmit env s)) = storage (browser s)
  /\ stored_issues (browser (handleSubmit env s)) = stored_issues (browser s)
  /\ user (browser (handleSubmit env s)) = user (browser s)
  /\ session_xp (browser (handleSubmit env s)) = session_xp (browser s)
  /\ route (browser (handleSubmit env s)) = route (browser s).
Proof.
  intros Hmissing.
  assert (Hnot : ~ well_formed s).
  { unfold well_formed. intros (Ht & Hd & Hs & Hl & Hv).
    destruct Hmissing as [H | [H | [H | [H | H]]]]; congruence. }
  rewrite (handleSubmit_rejected env s Hnot). repeat split.
Qed.

Lemma C2_incomplete_submission_rejected_witness :
  handleSubmit sample_env
    {| browser := first_visit; title := "Pothole"; description := "";
       severity := "high"; location := "12.97, 77.59"; image := None;
       verified := true; loading := false |}
  = on_browser (toast missing_fields)
      {| browser := first_visit; title := "Pothole"; description := "";
         severity := "high"; location := "12.97, 77.59"; image := None;
         verified := true; loading := false |}.
Proof.
  refine (proj1 (C2_incomplete_submission_rejected sample_env
                   {| browser := first_visit; title := "Pothole";
                      description := ""; severity := "high";
                      location := "12.97, 77.59"; image := None;
                      verified := true; loading := false |} _)).
  right. left. reflexivity.
Defined.

Lemma submitted_stored_issues (env : Env) (s : State) :
  toasts (browser (handleSubmit env s))
  = toasts (browser s) ++ [report_submitted] ->
  exists u, user (browser s) = Some u
    /\ stored_issues (browser (handleSubmit env s))
       = stored_issues (browser s) ++ [newIssue env s (User.id u)].
Proof.
  intros Htoast.
  destruct (submitted_inv env s Htoast) as (Hwf & [u Hu] & Hstore).
  exists u. split; [exact Hu |].
  now rewrite (handleSubmit_submitted env s u Hwf Hu Hstore).
Qed.

(** The claim that no two stored issues ever share an id fails: two
    different reports submitted under the same [Math.random()] draw are
    stored with the same id. *)
Lemma C8_same_draw_same_id :
  Issue.title
  <$> stored_issues
        (browser
           (handleSubmit sample_env
              (litter_form
                 (browser (handleSubmit sample_env (pothole_form first_visit))))))
  = ["Pothole"; "Litter"]
  /\ ~ NoDup
       (Issue.id
        <$> stored_issues
              (browser
                 (handleSubmit sample_env
                    (litter_form
                       (browser
                          (handleSubmit sample_env
                             (pothole_form first_visit))))))).
Proof.
  split; [reflexivity |].
  change (~ NoDup ["0.7564"; "0.7564"]).
  intros Hnodup. apply NoDup_cons in Hnodup as [Hnotin _].
  apply Hnotin. left.
Qed.

(** C8 (amended): the id of the issue a submission creates is the string
    of its [Math.random()] draw, and nothing compares it with the ids
    already stored: after a submission that went through on a store with
    pairwise distinct ids, the ids are pairwise distinct exactly when the
    draw is not yet the id of a stored issue. *)
Theorem C8_ids_distinct_iff_draw_fresh (env : Env) (s : State) :
  toasts (browser (handleSubmit env s))
  = toasts (browser s) ++ [report_submitted] ->
  NoDup (Issue.id <$> stored_issues (browser s)) ->
  Issue.id <$> stored_issues (browser (handleSubmit env s))
  = (Issue.id <$> stored_issues (browser s)) ++ [Math_random_toString env]
  /\ (NoDup (Issue.id <$> stored_issues (browser (handleSubmit env s)))
      <-> Math_random_toString env ∉ Issue.id <$> stored_issues (browser s)).
Proof.
  intros Htoast Hnodup.
  destruct (submitted_stored_issues env s Htoast) as (u & _ & ->).
  rewrite fmap_app. cbn [fmap list_fmap newIssue Issue.id].
  split; [reflexivity |].
  rewrite NoDup_app. split.
  - intros (_ & Hdisj & _) Hin. apply (Hdisj _ Hin). left.
  - intros Hfresh. split; [exact Hnodup |]. split.
    + intros x Hx Hx'. apply list_elem_of_singleton in Hx'. now subst x.
    + apply NoDup_singleton.
Qed.

Lemma C8_ids_distinct_iff_draw_fresh_witness :
  NoDup
    (Issue.id
     <$> stored_issues
           (browser (handleSubmit sample_env (pothole_form first_visit)))).
Proof.
  apply (C8_ids_distinct_iff_draw_fresh sample_env (pothole_form first_visit)).
  - reflexivity.
  - apply NoDup_nil_2.
  - intros Hin. inversion Hin.
Defined.

(** C9: a submission that went through leaves every issue that was
    stored before at its position, unchanged, and puts the new issue
    right after them. *)
Theorem C9_submit_keeps_stored_issues (env : Env) (s : State) :
  toasts (browser (handleSubmit env s))
  = toasts (browser s) ++ [report_submitted] ->
  exists issue : Issue.t,
    stored_issues (browser (handleSubmit env s))
    = stored_issues (browser s) ++ [issue]
    /\ (forall (i : nat) (x : Issue.t),
          stored_issues (browser s) !! i = Some x ->
          stored_issues (browser (handleSubmit env s)) !! i = Some x)
    /\ stored_issues (browser (handleSubmit env s))
         !! length (stored_issues (browser s)) = Some issue
    /\ length (stored_issues (browser (handleSubmit env s)))
       = S (length (stored_issues (browser s)))
    /\ Storage.usersData (storage (browser (handleSubmit env s)))
       = Storage.usersData (storage (browser s)).
Proof.
  intros Htoast.
  destruct (submitted_inv env s Htoast) as (Hwf & [u Hu] & Hstore).
  destruct (submitted_stored_issues env s Htoast) as (u' & _ & Happ).
  exists (newIssue env s (User.id u')). rewrite Happ.
  split; [reflexivity |].
  split; [intros i x Hx; now apply lookup_app_l_Some |].
  split; [apply list_lookup_middle; reflexivity |].
  split; [rewrite length_app; simpl; lia |].
  now rewrite (handleSubmit_submitted env s u Hwf Hu Hstore).
Qed.

Lemma C9_submit_keeps_stored_issues_witness :
  exists issue : Issue.t,
    stored_issues
      (browser
         (handleSubmit sample_env
            (litter_form
               (browser (handleSubmit sample_env (pothole_form first_visit))))))
    = stored_issues
        (browser (handleSubmit sample_env (pothole_form first_visit)))
      ++ [issue].
Proof.
  destruct (C9_submit_keeps_stored_issues sample_env
              (litter_form
                 (browser (handleSubmit sample_env (pothole_form first_visit))))
              eq_refl) as (issue & Happ & _).
  exists issue. exact Happ.
Defined.

End SubmitClaims.

(** * The exact rating against binary64 *)

(** For every description length up to 400 (twice the length at which the
    description score is capped) the double computed by the browser is the
    double nearest to the exact rating. *)
Lemma binary64_rating_agrees :
  forallb Binary64.agrees (seq 0 401) = true.
Proof. vm_compute. reflexivity. Qed.

(** * Further properties of the priority rating *)

Section RatingShape.
Import ReportIssue.

Lemma capped_length_score (n : nat) :
  (JS.Math_min (inject_Z (Z.of_nat n) / 100) 2
   == inject_Z (Z.min (Z.of_nat n) 200) / 100)%Q.
Proof.
  unfold JS.Math_min.
  destruct (Z.le_ge_cases (Z.of_nat n) 200) as [Hle | Hge].
  - rewrite Z.min_l by exact Hle. apply Q.min_l.
    apply Qle_shift_div_r; [reflexivity |].
    change (2 * 100)%Q with (inject_Z 200). now rewrite <- Zle_Qle.
  - rewrite Z.min_r by lia. rewrite Q.min_r; [reflexivity |].
    apply Qle_shift_div_l; [reflexivity |].
    change (2 * 100)%Q with (inject_Z 200). rewrite <- Zle_Qle. lia.
Qed.

Lemma round_tenths (t m : Z) :
  JS.Math_round ((inject_Z t + inject_Z m / 100) * 10)
  = inject_Z (10 * t + (m + 5) / 10).
Proof.
  unfold JS.Math_round. f_equal.
  assert (Hq : ((inject_Z t + inject_Z m / 100) * 10 + (1 # 2)
                == (t * 100 + (m + 5)) # 10)%Q).
  { unfold Qeq, Qplus, Qmult, Qdiv, Qinv, inject_Z; simpl.
    cbv [Pos.mul Pos.add]. ring. }
  rewrite Hq. unfold Qfloor.
  replace (t * 100 + (m + 5)) with (10 * t * 10 + (m + 5)) by ring.
  now rewrite Z.div_add_l.
Qed.

Lemma rating_closed_form (severity description : string) :
  (calculatePriorityRating severity description
   == inject_Z (10 * severity_tier severity
                + (Z.min (Z.of_nat (String.length description)) 200 + 5) / 10)
      / 10)%Q.
Proof.
  unfold calculatePriorityRating, severity_tier.
  assert (Hround : forall t : Z,
             (JS.Math_round
                ((inject_Z t
                  + JS.Math_min
                      (inject_Z (Z.of_nat (String.length description)) / 100) 2)
                 * 10)
              == inject_Z
                   (10 * t
                    + (Z.min (Z.of_nat (String.length description)) 200 + 5) / 10))%Q).
  { intros t. rewrite <- round_tenths. unfold JS.Math_round.
    now rewrite capped_length_score. }
  destruct (String.eqb severity "high");
    [| destruct (String.eqb severity "medium")].
  - now rewrite <- (Hround 3).
  - now rewrite <- (Hround 2).
  - now rewrite <- (Hround 1).
Qed.


(** X1: the rating in closed form.  With [t] the severity score (3 for
    "high", 2 for "medium", 1 otherwise) and [L] the description length,
    ten times the rating is the integer [10 t + (min L 200 + 5) / 10]: a
    tenth per ten characters, rounded half up, and nothing beyond 200
    characters. *)
Theorem X1_rating_closed_form (severity description : string) :
  (calculatePriorityRating severity description
   == inject_Z (10 * severity_tier severity
                + (Z.min (Z.of_nat (String.length description)) 200 + 5) / 10)
      / 10)%Q.
Proof. apply rating_closed_form. Qed.

Lemma severity_tier_range (severity : string) :
  1 <= severity_tier severity <= 3.
Proof.
  unfold severity_tier.
  destruct (String.eqb severity "high"); [lia |].
  destruct (String.eqb severity "medium"); lia.
Qed.

Lemma description_tenths_range (n : nat) :
  0 <= (Z.min (Z.of_nat n) 200 + 5) / 10 <= 20.
Proof.
  pose proof (Z.div_mod (Z.min (Z.of_nat n) 200 + 5) 10) as Hdiv.
  pose proof (Z.mod_pos_bound (Z.min (Z.of_nat n) 200 + 5) 10) as Hmod.
  lia.
Qed.

(** X2: whatever the two strings are, the rating lies between the
    severity score and the severity score plus 2, hence between 1 and 5,
    and it has one decimal place: ten times the rating is an integer. *)
Theorem X2_rating_range (severity description : string) :
  (inject_Z (severity_tier severity)
   <= calculatePriorityRating severity description
   <= inject_Z (severity_tier severity) + 2)%Q
  /\ (1 <= calculatePriorityRating severity description <= 5)%Q
  /\ exists tenths : Z,
       10 <= tenths <= 50
       /\ (calculatePriorityRating severity description
           == inject_Z tenths / 10)%Q.
Proof.
  pose proof (rating_closed_form severity description) as Hform.
  pose proof (severity_tier_range severity) as Htier.
  pose proof (description_tenths_range (String.length description)) as Hlen.
  set (t := severity_tier severity) in *.
  set (k := (Z.min (Z.of_nat (String.length description)) 200 + 5) / 10) in *.
  assert (Hlo : (inject_Z t <= inject_Z (10 * t + k) / 10)%Q).
  { apply Qle_shift_div_l; [reflexivity |].
    change 10%Q with (inject_Z 10). rewrite <- inject_Z_mult, <- Zle_Qle. lia. }
  assert (Hhi : (inject_Z (10 * t + k) / 10 <= inject_Z t + 2)%Q).
  { apply Qle_shift_div_r; [reflexivity |].
    change 2%Q with (inject_Z 2). change 10%Q with (inject_Z 10).
    rewrite <- inject_Z_plus, <- inject_Z_mult, <- Zle_Qle. lia. }
  rewrite Hform. split; [split; assumption |]. split.
  - split.
    + apply Qle_trans with (inject_Z t); [| exact Hlo].
      change 1%Q with (inject_Z 1). rewrite <- Zle_Qle. lia.
    + apply Qle_trans with (inject_Z t + 2)%Q; [exact Hhi |].
      change 2%Q with (inject_Z 2). change 5%Q with (inject_Z 5).
      rewrite <- inject_Z_plus, <- Zle_Qle. lia.
  - exists (10 * t + k). split; [lia | exact Hform].
Qed.

(** X3: for one and the same description each severity level is worth
    exactly one rating point: "medium" rates 1 above "low" (and above any
    unrecognised severity), "high" rates 1 above "medium". *)
Theorem X3_severity_level_is_one_point (description : string) :
  (calculatePriorityRating "medium" description
   == calculatePriorityRating "low" description + 1)%Q
  /\ (calculatePriorityRating "high" description
      == calculatePriorityRating "medium" description + 1)%Q.
Proof.
  rewrite !rating_closed_form.
  change (severity_tier "low") with 1.
  change (severity_tier "medium") with 2.
  change (severity_tier "high") with 3.
  set (k := (Z.min (Z.of_nat (String.length description)) 200 + 5) / 10).
  split; unfold Qeq, Qplus, Qdiv, Qmult, Qinv, inject_Z; simpl;
    cbv [Pos.mul Pos.add]; ring.
Qed.

End RatingShape.

(** * Further properties of the submission *)

Section SubmitOutcomes.
Import ReportIssue.

(** X4: a well-formed submission made while nobody is logged in, or
    while the ["issuesData"] entry cannot be parsed, ends in the [catch]:
    it logs to the console and shows the destructive "Submission failed"
    toast, stores nothing, leaves the session user (and the experience
    points) alone, does not navigate, and clears the loading flag. *)
Theorem X4_failed_submission_changes_nothing (env : Env) (s : State) :
  well_formed s ->
  user (browser s) = None
  \/ Storage.issuesData (storage (browser s)) = Some Storage.Garbled ->
  toasts (browser (handleSubmit env s))
  = toasts (browser s) ++ [submission_failed]
  /\ console (browser (handleSubmit env s))
     = console (browser s) ++ ["Failed to submit report:"]
  /\ storage (browser (handleSubmit env s)) = storage (browser s)
  /\ user (browser (handleSubmit env s)) = user (browser s)
  /\ route (browser (handleSubmit env s)) = route (browser s)
  /\ loading (handleSubmit env s) = false.
Proof.
  intros Hwf Hfail. rewrite (handleSubmit_failed env s Hwf Hfail).
  repeat split.
Qed.

Lemma X4_failed_submission_changes_nothing_witness :
  toasts
    (browser
       (handleSubmit sample_env
          (pothole_form
             (session {| Storage.issuesData := Some Storage.Garbled;
                         Storage.usersData := None |} (Some alice)))))
  = [submission_failed]
  /\ storage
       (browser
          (handleSubmit sample_env
             (pothole_form
                (session {| Storage.issuesData := Some Storage.Garbled;
                            Storage.usersData := None |} (Some alice)))))
     = {| Storage.issuesData := Some Storage.Garbled;
          Storage.usersData := None |}.
Proof.
  destruct (X4_failed_submission_changes_nothing sample_env
              (pothole_form
                 (session {| Storage.issuesData := Some Storage.Garbled;
                             Storage.usersData := None |} (Some alice))))
    as (Htoast & _ & Hstore & _).
  - repeat split; discriminate.
  - right. reflexivity.
  - split; [exact Htoast | exact Hstore].
Defined.

(** The three ways a call of [handleSubmit] can end. *)
Lemma handleSubmit_cases (env : Env) (s : State) :
  handleSubmit env s = on_browser (toast missing_fields) s
  \/ handleSubmit env s
     = setLoading false
         (on_browser (toast submission_failed)
            (on_browser (console_error "Failed to submit report:") s))
  \/ exists u : User.t,
       well_formed s /\ user (browser s) = Some u
       /\ Storage.issuesData (storage (browser s)) <> Some Storage.Garbled.
Proof.
  destruct (decide (well_formed s)) as [Hwf | Hnot];
    [| left; now apply handleSubmit_rejected].
  right. destruct (user (browser s)) as [u|] eqn:Hu;
    [| left; apply handleSubmit_failed; auto].
  destruct (Storage.issuesData (storage (browser s))) as [[|d]|] eqn:Hi.
  - left. apply handleSubmit_failed; auto.
  - right. exists u. split; [exact Hwf | split; [reflexivity | discriminate]].
  - right. exists u. split; [exact Hwf | split; [reflexivity | discriminate]].
Qed.

(** X5: every call of [handleSubmit] shows exactly one toast, one of
    "Missing fields", "Submission failed" and "Report submitted"; it
    navigates (to the dashboard) exactly when that toast is "Report
    submitted"; and it never clears or changes what the user entered. *)
Theorem X5_one_toast_and_navigation_on_success (env : Env) (s : State) :
  (exists t : Toast.t,
      toasts (browser (handleSubmit env s)) = toasts (browser s) ++ [t]
      /\ (t = missing_fields
             /\ route (browser (handleSubmit env s)) = route (browser s)
          \/ t = submission_failed
             /\ route (browser (handleSubmit env s)) = route (browser s)
          \/ t = report_submitted
             /\ route (browser (handleSubmit env s))
                = route (browser s) ++ ["/citizen/dashboard"]))
  /\ title (handleSubmit env s) = title s
  /\ description (handleSubmit env s) = description s
  /\ severity (handleSubmit env s) = severity s
  /\ location (handleSubmit env s) = location s
  /\ image (handleSubmit env s) = image s
  /\ verified (handleSubmit env s) = verified s.
Proof.
  destruct (handleSubmit_cases env s) as [-> | [-> | (u & Hwf & Hu & Hok)]].
  - split; [| repeat split]. exists missing_fields. simpl. auto.
  - split; [| repeat split]. exists submission_failed. simpl. auto.
  - rewrite (handleSubmit_submitted env s u Hwf Hu Hok).
    split; [| repeat split]. exists report_submitted. simpl. auto 6.
Qed.

End SubmitOutcomes.

(** * The report form as a whole *)

Section FormSession.
Import ReportIssue.

Lemma coordinates_not_empty (latitude longitude : string) :
  ReportForm.coordinates latitude longitude <> "".
Proof.
  unfold ReportForm.coordinates. destruct latitude; discriminate.
Qed.

Lemma severity_name_not_empty (sev : Severity) : severity_name sev <> "".
Proof. destruct sev; discriminate. Qed.

Lemma fmap_add_zero (o : option Z) :
  (fun xp => xp + 50 * Z.of_nat (@length Issue.t [])) <$> o = o.
Proof. destruct o as [x|]; simpl; [f_equal; lia | reflexivity]. Qed.

Lemma form_inv_initial (b : Browser) : form_inv b (ReportForm.initial b).
Proof.
  unfold form_inv; simpl. split; [now left |]. split; [now left |].
  split; [reflexivity |]. exists []. rewrite app_nil_r, fmap_add_zero.
  repeat split. constructor.
Qed.

(** A submission that goes through on a state satisfying the invariant
    re-establishes it with one more issue. *)
Lemma form_inv_submitted (b : Browser) (env : Env) (f : State) (u : User.t)
    (preview : option string) :
  form_inv b {| ReportForm.form := f; ReportForm.imagePreview := preview |} ->
  well_formed f ->
  user (browser f) = Some u ->
  Storage.issuesData (storage (browser f)) <> Some Storage.Garbled ->
  form_inv b {| ReportForm.form := handleSubmit env f;
                ReportForm.imagePreview := preview |}.
Proof.
  intros (Hsev & Hloc & Hid & new & Hnew & Hall & Hxp) Hwf Hu Hok.
  cbn [ReportForm.form] in *.
  pose proof Hwf as (Ht & Hd & Hs & Hl & Hv).
  rewrite (handleSubmit_submitted env f u Hwf Hu Hok).
  unfold form_inv.
  cbn [ReportForm.form browser severity location user JS.optional_chain].
  split; [exact Hsev |]. split; [exact Hloc |].
  split; [rewrite <- Hid, Hu; reflexivity |].
  exists (new ++ [newIssue env f (User.id u)]).
  split; [| split].
  - unfold stored_issues at 1. cbn [storage Storage.issuesData Storage.issues default
                                     from_option id].
    now rewrite Hnew, app_assoc.
  - apply Forall_app. split; [exact Hall |]. constructor; [| constructor].
    unfold from_form; cbn [newIssue Issue.status Issue.severity Issue.title
                           Issue.description Issue.location Issue.solver_id
                           Issue.solution_image_url Issue.solved_at].
    split; [reflexivity |].
    split; [destruct Hsev as [Hsev | Hsev]; [contradiction | exact Hsev] |].
    split; [exact Ht |]. split; [exact Hd |].
    split; [destruct Hloc as [Hloc | Hloc]; [contradiction | exact Hloc] |].
    repeat (split; [reflexivity |]).
    unfold reported_by. cbn [newIssue Issue.reporter_id].
    rewrite <- Hid, Hu. reflexivity.
  - unfold session_xp in *. cbn [user JS.optional_chain User.xp_points].
    rewrite Hu in Hxp. cbn [JS.optional_chain] in Hxp.
    destruct (JS.optional_chain (user b) User.xp_points) as [x|];
      [| discriminate].
    cbn [fmap option_fmap option_map] in *. injection Hxp as Hxp.
    f_equal. rewrite length_app. cbn [length]. lia.
Qed.

Lemma form_inv_step (b : Browser) (e : ReportForm.Event) (s : ReportForm.State) :
  form_inv b s -> form_inv b (ReportForm.step e s).
Proof.
  intros Hinv. destruct s as [f preview].
  destruct e as [v | v | sev | geo | files | result | checked | env |];
    cbn [ReportForm.step ReportForm.on_form ReportForm.form
         ReportForm.imagePreview ReportForm.onloadend ReportForm.setImagePreview].
  - exact Hinv.
  - exact Hinv.
  - destruct Hinv as (_ & Hrest). split; [| exact Hrest].
    right. now exists sev.
  - destruct geo as [| latitude longitude |]; [exact Hinv | | exact Hinv].
    destruct Hinv as (Hsev & _ & Hrest). split; [exact Hsev |].
    split; [| exact Hrest]. right. now exists latitude, longitude.
  - unfold ReportForm.handleImageUpload.
    destruct (ReportForm.first_file files); exact Hinv.
  - exact Hinv.
  - exact Hinv.
  - unfold ReportForm.on_form.
    cbn [ReportForm.form ReportForm.imagePreview].
    destruct (handleSubmit_cases env f) as [Heq | [Heq | (u & Hwf & Hu & Hok)]].
    + rewrite Heq. exact Hinv.
    + rewrite Heq. exact Hinv.
    + now apply (form_inv_submitted b env f u preview).
  - exact Hinv.
Qed.

Lemma form_inv_run (b : Browser) (events : list ReportForm.Event)
    (s : ReportForm.State) :
  form_inv b s -> form_inv b (ReportForm.run events s).
Proof.
  revert s. induction events as [|e events IH]; intros s Hinv; [exact Hinv |].
  apply IH. now apply form_inv_step.
Qed.

(** X6: whatever is done with the form, in whatever order, from the
    moment it is opened: the issues it has stored are the ones there before
    followed by new ones, each new one [pending], without solver or
    solution, with a title and a description that are not empty, a severity
    among low, medium and high, a location made of two captured
    coordinates, and reported by the session user; and the session user's
    experience points have grown by 50 for each of them. *)
Theorem X6_form_stores_only_complete_pending_reports
    (b : Browser) (events : list ReportForm.Event) :
  exists new : list Issue.t,
    stored_issues
      (browser (ReportForm.form (ReportForm.run events (ReportForm.initial b))))
    = stored_issues b ++ new
    /\ Forall (from_form (user b)) new
    /\ session_xp
         (browser
            (ReportForm.form (ReportForm.run events (ReportForm.initial b))))
       = (fun xp => xp + 50 * Z.of_nat (length new)) <$> session_xp b.
Proof.
  destruct (form_inv_run b events (ReportForm.initial b) (form_inv_initial b))
    as (_ & _ & _ & Hnew).
  exact Hnew.
Qed.

Lemma X6_form_stores_only_complete_pending_reports_witness :
  exists new : list Issue.t,
    stored_issues
      (browser
         (ReportForm.form
            (ReportForm.run
               [ReportForm.ChangeTitle "Pothole";
                ReportForm.Submit sample_env;
                ReportForm.ChangeDescription "Deep pothole on Main Street";
                ReportForm.SelectSeverity high;
                ReportForm.CaptureLocation (ReportForm.Position "12.97" "77.59");
                ReportForm.CheckVerified true;
                ReportForm.Submit sample_env]
               (ReportForm.initial first_visit))))
    = stored_issues first_visit ++ new
    /\ length new = 1%nat
    /\ Forall (from_form (Some alice)) new.
Proof.
  destruct (X6_form_stores_only_complete_pending_reports first_visit
              [ReportForm.ChangeTitle "Pothole";
               ReportForm.Submit sample_env;
               ReportForm.ChangeDescription "Deep pothole on Main Street";
               ReportForm.SelectSeverity high;
               ReportForm.CaptureLocation (ReportForm.Position "12.97" "77.59");
               ReportForm.CheckVerified true;
               ReportForm.Submit sample_env])
    as (new & Heq & Hall & _).
  exists new. split; [exact Heq |]. split; [| exact Hall].
  apply (f_equal length) in Heq. exact (eq_sym Heq).
Defined.

End FormSession.

Section FormBlocked.
Import ReportIssue.

(** Every handler but [handleSubmit] leaves [localStorage] and the
    session user alone. *)
Lemma step_keeps_session (e : ReportForm.Event) (s : ReportForm.State) :
  (forall env, e <> ReportForm.Submit env) ->
  storage (browser (ReportForm.form (ReportForm.step e s)))
  = storage (browser (ReportForm.form s))
  /\ user (browser (ReportForm.form (ReportForm.step e s)))
     = user (browser (ReportForm.form s)).
Proof.
  intros Hnot.
  destruct e as [v | v | sev | geo | files | result | checked | env |];
    try (split; reflexivity).
  - destruct geo; split; reflexivity.
  - unfold ReportForm.step, ReportForm.handleImageUpload.
    destruct (ReportForm.first_file files); split; reflexivity.
  - now destruct (Hnot env).
Qed.

(** A property [Q] of the form that rules out a well-formed submission
    and that the events in [allowed] keep: as long as only such events
    happen, nothing reaches the store or the session user. *)
Lemma blocked_run (Q : State -> Prop) (allowed : ReportForm.Event -> Prop) :
  (forall f, Q f -> ~ well_formed f) ->
  (forall f g, Q f -> Q (on_browser g f)) ->
  (forall e s, allowed e -> (forall env, e <> ReportForm.Submit env) ->
               Q (ReportForm.form s) ->
               Q (ReportForm.form (ReportForm.step e s))) ->
  forall (events : list ReportForm.Event) (s : ReportForm.State),
    Forall allowed events ->
    Q (ReportForm.form s) ->
    storage (browser (ReportForm.form (ReportForm.run events s)))
    = storage (browser (ReportForm.form s))
    /\ user (browser (ReportForm.form (ReportForm.run events s)))
       = user (browser (ReportForm.form s)).
Proof.
  intros Hblocks Hbrowser Hstep events.
  induction events as [|e events IH]; intros s Hall HQ; [split; reflexivity |].
  apply Forall_cons in Hall as [He Hall].
  assert (Hnext : Q (ReportForm.form (ReportForm.step e s))
                  /\ storage (browser (ReportForm.form (ReportForm.step e s)))
                     = storage (browser (ReportForm.form s))
                  /\ user (browser (ReportForm.form (ReportForm.step e s)))
                     = user (browser (ReportForm.form s))).
  { destruct (match e with ReportForm.Submit _ => true | _ => false end) eqn:Hkind.
    - destruct e; try discriminate. destruct s as [f preview].
      cbn [ReportForm.step ReportForm.on_form ReportForm.form] in *.
      rewrite (handleSubmit_rejected env f (Hblocks f HQ)).
      split; [now apply Hbrowser | split; reflexivity].
    - assert (Hnot : forall env, e <> ReportForm.Submit env).
      { intros env ->. discriminate. }
      split; [now apply Hstep | now apply step_keeps_session]. }
  destruct Hnext as (HQ' & Hstore & Huser).
  destruct (IH (ReportForm.step e s) Hall HQ') as [Hstore' Huser'].
  cbn [ReportForm.run fold_left]. fold (ReportForm.run events (ReportForm.step e s)).
  split; congruence.
Qed.

(** X7: the form cannot store anything, nor award points, in a session
    in which no location capture succeeds, or no severity is selected, or
    the verification box is never ticked, whatever else is entered and
    however often the form is submitted.  (The location has no input
    field: without geolocation no report can be filed.) *)
Theorem X7_nothing_stored_without_location_severity_verification
    (b : Browser) (events : list ReportForm.Event) :
  Forall (fun e => forall latitude longitude,
              e <> ReportForm.CaptureLocation
                     (ReportForm.Position latitude longitude)) events
  \/ Forall (fun e => forall sev, e <> ReportForm.SelectSeverity sev) events
  \/ Forall (fun e => e <> ReportForm.CheckVerified true) events ->
  storage (browser (ReportForm.form (ReportForm.run events (ReportForm.initial b))))
  = storage b
  /\ user (browser (ReportForm.form (ReportForm.run events (ReportForm.initial b))))
     = user b.
Proof.
  intros [Hall | [Hall | Hall]].
  - refine (blocked_run (fun f => location f = "") _ _ _ _ events
                (ReportForm.initial b) Hall eq_refl).
    + intros f Hf (_ & _ & _ & Hl & _). contradiction.
    + intros f g Hf. exact Hf.
    + intros e [f preview] He Hnot Hf.
      destruct e as [v | v | sev | geo | files | result | checked | env |];
        try exact Hf; try (now destruct (Hnot env)).
      * destruct geo as [| latitude longitude |]; try exact Hf.
        now destruct (He latitude longitude).
      * unfold ReportForm.step, ReportForm.handleImageUpload.
        destruct (ReportForm.first_file files); exact Hf.
  - refine (blocked_run (fun f => severity f = "") _ _ _ _ events
                (ReportForm.initial b) Hall eq_refl).
    + intros f Hf (_ & _ & Hs & _). contradiction.
    + intros f g Hf. exact Hf.
    + intros e [f preview] He Hnot Hf.
      destruct e as [v | v | sev | geo | files | result | checked | env |];
        try exact Hf; try (now destruct (Hnot env)).
      * now destruct (He sev).
      * destruct geo; exact Hf.
      * unfold ReportForm.step, ReportForm.handleImageUpload.
        destruct (ReportForm.first_file files); exact Hf.
  - refine (blocked_run (fun f => verified f = false) _ _ _ _ events
                (ReportForm.initial b) Hall eq_refl).
    + intros f Hf (_ & _ & _ & _ & Hv). congruence.
    + intros f g Hf. exact Hf.
    + intros e [f preview] He Hnot Hf.
      destruct e as [v | v | sev | geo | files | result | checked | env |];
        try exact Hf; try (now destruct (Hnot env)).
      * destruct geo; exact Hf.
      * unfold ReportForm.step, ReportForm.handleImageUpload.
        destruct (ReportForm.first_file files); exact Hf.
      * destruct checked; [now destruct He | reflexivity].
Qed.

Lemma X7_nothing_stored_without_location_severity_verification_witness :
  storage
    (browser
       (ReportForm.form
          (ReportForm.run
             [ReportForm.ChangeTitle "Pothole";
              ReportForm.ChangeDescription "Deep pothole on Main Street";
              ReportForm.SelectSeverity high;
              ReportForm.CaptureLocation ReportForm.Unsupported;
              ReportForm.CheckVerified true;
              ReportForm.Submit sample_env]
             (ReportForm.initial first_visit))))
  = storage first_visit.
Proof.
  refine (proj1
            (X7_nothing_stored_without_location_severity_verification
               first_visit
               [ReportForm.ChangeTitle "Pothole";
                ReportForm.ChangeDescription "Deep pothole on Main Street";
                ReportForm.SelectSeverity high;
                ReportForm.CaptureLocation ReportForm.Unsupported;
                ReportForm.CheckVerified true;
                ReportForm.Submit sample_env] _)).
  left. repeat constructor; intros latitude longitude; discriminate.
Defined.

(** X8: a successful capture always yields a location the guard of
    [handleSubmit] accepts, even from empty coordinate strings, so a form
    whose other fields are filled in becomes well formed; a capture that
    fails, or a browser without geolocation, keeps the location captured
    earlier and shows a destructive toast. *)
Theorem X8_location_set_only_by_successful_capture
    (geo : ReportForm.Geolocation) (s : State) :
  (forall latitude longitude,
      geo = ReportForm.Position latitude longitude ->
      location (ReportForm.getLocation geo s)
      = ReportForm.coordinates latitude longitude
      /\ JS.truthy (location (ReportForm.getLocation geo s)) = true
      /\ (title s <> "" -> description s <> "" -> severity s <> "" ->
          verified s = true -> well_formed (ReportForm.getLocation geo s)))
  /\ ((forall latitude longitude,
          geo <> ReportForm.Position latitude longitude) ->
      location (ReportForm.getLocation geo s) = location s
      /\ exists t : Toast.t,
           toasts (browser (ReportForm.getLocation geo s))
           = toasts (browser s) ++ [t]
           /\ Toast.variant t = Some "destructive").
Proof.
  split.
  - intros latitude longitude ->. cbn [ReportForm.getLocation].
    split; [reflexivity |].
    assert (Hne : ReportForm.coordinates latitude longitude <> "")
      by apply coordinates_not_empty.
    split.
    + unfold JS.truthy. apply Bool.negb_true_iff, String.eqb_neq. exact Hne.
    + intros Ht Hd Hs Hv. repeat split; assumption.
  - intros Hfail. destruct geo as [| latitude longitude |].
    + split; [reflexivity |].
      exists ReportForm.geolocation_not_supported. split; reflexivity.
    + now destruct (Hfail latitude longitude).
    + split; [reflexivity |].
      exists ReportForm.location_error. split; reflexivity.
Qed.

Lemma X8_location_set_only_by_successful_capture_witness :
  location
    (ReportForm.getLocation (ReportForm.Position "12.97" "77.59")
       (pothole_form first_visit))
  = "12.97, 77.59"
  /\ location
       (ReportForm.getLocation ReportForm.PositionError
          (pothole_form first_visit))
     = location (pothole_form first_visit).
Proof.
  split.
  - apply (proj1 (X8_location_set_only_by_successful_capture
                    (ReportForm.Position "12.97" "77.59")
                    (pothole_form first_visit)) "12.97" "77.59" eq_refl).
  - apply (proj2 (X8_location_set_only_by_successful_capture
                    ReportForm.PositionError (pothole_form first_visit))).
    intros latitude longitude. discriminate.
Defined.

(** X9: choosing an image.  When the file chooser is dismissed (no list,
    or an empty one) the image chosen earlier stays; otherwise the first
    file becomes the image, and further files are ignored.  In both cases
    a submission that goes through right after stores, as [image_url], the
    object URL of the attached file, or [null] when there is none; the
    preview read by the [FileReader] is never what is stored. *)
Theorem X9_first_chosen_file_is_attached
    (files : option (list File)) (env : Env) (s : ReportForm.State) (u : User.t) :
  well_formed (ReportForm.form s) ->
  user (browser (ReportForm.form s)) = Some u ->
  Storage.issuesData (storage (browser (ReportForm.form s)))
  <> Some Storage.Garbled ->
  image (ReportForm.form (ReportForm.handleImageUpload files s))
  = match ReportForm.first_file files with
    | Some file => Some file
    | None => image (ReportForm.form s)
    end
  /\ ReportForm.imagePreview (ReportForm.handleImageUpload files s)
     = ReportForm.imagePreview s
  /\ exists issue : Issue.t,
       stored_issues
         (browser
            (ReportForm.form
               (ReportForm.run
                  [ReportForm.ChooseImage files; ReportForm.Submit env] s)))
       = stored_issues (browser (ReportForm.form s)) ++ [issue]
       /\ Issue.image_url issue
          = URL_createObjectURL env
            <$> match ReportForm.first_file files with
                | Some file => Some file
                | None => image (ReportForm.form s)
                end.
Proof.
  intros Hwf Hu Hok. destruct s as [f preview].
  cbn [ReportForm.form ReportForm.imagePreview] in *.
  cbn [ReportForm.run fold_left ReportForm.step].
  unfold ReportForm.handleImageUpload.
  destruct (ReportForm.first_file files) as [file|].
  - split; [reflexivity |]. split; [reflexivity |].
    unfold ReportForm.on_form. cbn [ReportForm.form ReportForm.imagePreview].
    rewrite (handleSubmit_submitted env (ReportForm.setImage file f) u);
      [| exact Hwf | exact Hu | exact Hok].
    eexists. split; [reflexivity | reflexivity].
  - split; [reflexivity |]. split; [reflexivity |].
    unfold ReportForm.on_form. cbn [ReportForm.form ReportForm.imagePreview].
    rewrite (handleSubmit_submitted env f u Hwf Hu Hok).
    eexists. split; [reflexivity |].
    cbn [newIssue Issue.image_url]. now destruct (image f).
Qed.

Lemma X9_first_chosen_file_is_attached_witness :
  image
    (ReportForm.form
       (ReportForm.handleImageUpload (Some ["hole.jpg"; "street.jpg"])
          {| ReportForm.form := pothole_form first_visit;
             ReportForm.imagePreview := None |}))
  = Some "hole.jpg".
Proof.
  refine (proj1
            (X9_first_chosen_file_is_attached (Some ["hole.jpg"; "street.jpg"])
               sample_env
               {| ReportForm.form := pothole_form first_visit;
                  ReportForm.imagePreview := None |} alice _ _ _)).
  - repeat split; discriminate.
  - reflexivity.
  - discriminate.
Defined.

End FormBlocked.

(** * Further properties of the dashboard *)

Section DashboardReads.
Import CitizenDashboard.

(** What one run of [fetchIssues] does, by what the store holds. *)
Lemma fetchIssues_by_cases (s : State) :
  match issues_list (browser s) with
  | None =>
      issues (fetchIssues s) = issues s
      /\ topCitizens (fetchIssues s) = topCitizens s
      /\ console (browser (fetchIssues s))
         = console (browser s) ++ ["Failed to fetch issues:"]
  | Some l =>
      issues (fetchIssues s) = userIssues (user (browser s)) l
      /\ match citizens_list (browser s) with
         | None =>
             topCitizens (fetchIssues s) = topCitizens s
             /\ console (browser (fetchIssues s))
                = console (browser s) ++ ["Failed to fetch issues:"]
         | Some citizens =>
             topCitizens (fetchIssues s) = sortedCitizens citizens
             /\ console (browser (fetchIssues s)) = console (browser s)
         end
  end.
Proof.
  destruct s as [[[i d] u t r c] shown top].
  unfold issues_list, citizens_list; simpl.
  destruct i as [[|[[l|]]]|]; simpl; auto.
  destruct d as [[|[[cs|]]]|]; simpl; auto.
Qed.

(** X10: one run of [fetchIssues], case by case.  If the issues list
    cannot be read (key absent, entry unparsable, no [issues] member) both
    lists shown keep their previous value and one error is logged, whatever
    the citizens entry holds.  If it can be read the user's issues are
    shown; the leaderboard is then replaced when the citizens list can be
    read too, and otherwise keeps its previous value with one error
    logged.  Nothing is logged when both are read. *)
Theorem X10_fetchIssues_case_by_case (s : State) :
  match issues_list (browser s) with
  | None =>
      issues (fetchIssues s) = issues s
      /\ topCitizens (fetchIssues s) = topCitizens s
      /\ console (browser (fetchIssues s))
         = console (browser s) ++ ["Failed to fetch issues:"]
  | Some l =>
      issues (fetchIssues s) = userIssues (user (browser s)) l
      /\ match citizens_list (browser s) with
         | None =>
             topCitizens (fetchIssues s) = topCitizens s
             /\ console (browser (fetchIssues s))
                = console (browser s) ++ ["Failed to fetch issues:"]
         | Some citizens =>
             topCitizens (fetchIssues s) = sortedCitizens citizens
             /\ console (browser (fetchIssues s)) = console (browser s)
         end
  end.
Proof. apply fetchIssues_by_cases. Qed.




Lemma userIssues_app (u : option User.t) (l k : list Issue.t) :
  userIssues u (l ++ k) = userIssues u l ++ userIssues u k.
Proof. unfold userIssues, JS.Array_filter. apply List.filter_app. Qed.

(** X12: a report that went through shows up on the dashboard.  After a
    submission that goes through, a dashboard mounted on the resulting
    session lists the reporter's earlier issues followed by the new one,
    and "Total Reports" counts one more. *)
Theorem X12_submitted_report_is_listed
    (env : Env) (s : ReportIssue.State) (u : User.t) :
  well_formed s ->
  user (ReportIssue.browser s) = Some u ->
  Storage.issuesData (storage (ReportIssue.browser s)) <> Some Storage.Garbled ->
  issues
    (fetchIssues (mount (ReportIssue.browser (ReportIssue.handleSubmit env s))))
  = userIssues (Some u) (stored_issues (ReportIssue.browser s))
    ++ [ReportIssue.newIssue env s (User.id u)]
  /\ DashboardView.total_reports
       (DashboardView.run [DashboardView.Effect]
          (DashboardView.mount
             (ReportIssue.browser (ReportIssue.handleSubmit env s))))
     = S (length (userIssues (Some u) (stored_issues (ReportIssue.browser s)))).
Proof.
  intros Hwf Hu Hok.
  assert (Hlist :
            issues
              (fetchIssues
                 (mount (ReportIssue.browser (ReportIssue.handleSubmit env s))))
            = userIssues (Some u) (stored_issues (ReportIssue.browser s))
              ++ [ReportIssue.newIssue env s (User.id u)]).
  { rewrite (handleSubmit_submitted env s u Hwf Hu Hok).
    rewrite (fetchIssues_issues _
               (stored_issues (ReportIssue.browser s)
                ++ [ReportIssue.newIssue env s (User.id u)]))
      by reflexivity.
    cbn [mount browser ReportIssue.browser user].
    rewrite userIssues_app. f_equal.
    unfold userIssues, JS.Array_filter.
    cbn [List.filter ReportIssue.newIssue Issue.reporter_id JS.optional_chain
         User.id JS.strict_eq].
    now rewrite String.eqb_refl. }
  split; [exact Hlist |].
  unfold DashboardView.total_reports.
  cbn [DashboardView.run fold_left DashboardView.step DashboardView.on_data
       DashboardView.data DashboardView.mount].
  rewrite Hlist, length_app. cbn [length]. lia.
Qed.

Lemma X12_submitted_report_is_listed_witness :
  issues
    (fetchIssues
       (mount
          (ReportIssue.browser
             (ReportIssue.handleSubmit sample_env (pothole_form first_visit)))))
  = userIssues (Some alice) (stored_issues first_visit)
    ++ [ReportIssue.newIssue sample_env (pothole_form first_visit) (User.id alice)].
Proof.
  refine (proj1 (X12_submitted_report_is_listed sample_env
                   (pothole_form first_visit) alice _ _ _)).
  - repeat split; discriminate.
  - reflexivity.
  - discriminate.
Defined.

End DashboardReads.

(** * The detail dialog *)

Section Dialog.
Import DashboardView.

Lemma resolved_true (issue : Issue.t) :
  resolved issue = true
  <-> Issue.status issue = "solved" \/ Issue.status issue = "rejected".
Proof.
  unfold resolved. rewrite Bool.orb_true_iff, !String.eqb_eq. reflexivity.
Qed.

Lemma selection_resolved_step (e : Event) (s : State) :
  selection_resolved s -> selection_resolved (step e s).
Proof.
  intros Hsel. destruct e as [index | |]; cbn [step].
  - destruct (CitizenDashboard.issues (data s) !! index) as [issue|];
      [| exact Hsel].
    unfold onCardClick. destruct (resolved issue) eqn:Hres; [| exact Hsel].
    intros issue' Heq. cbn in Heq. now injection Heq as <-.
  - intros issue Heq. discriminate.
  - exact Hsel.
Qed.

Lemma selection_resolved_run (events : list Event) (s : State) :
  selection_resolved s -> selection_resolved (run events s).
Proof.
  revert s. induction events as [|e events IH]; intros s Hsel; [exact Hsel |].
  apply IH. now apply selection_resolved_step.
Qed.

Lemma XPDeducted_in_body (s : State) :
  In XPDeducted (DialogBody s)
  <-> exists issue, selectedIssue s = Some issue
                    /\ Issue.status issue = "rejected".
Proof.
  unfold DialogBody. destruct (selectedIssue s) as [issue|].
  - destruct (String.eqb (Issue.status issue) "rejected") eqn:Hrej.
    + apply String.eqb_eq in Hrej. split; [| intros _; right; now left].
      intros _. now exists issue.
    + apply String.eqb_neq in Hrej. split.
      * cbn [app]. intros [Hin | Hin]; [discriminate |].
        apply in_app_iff in Hin as [Hin | [Hin | []]]; [| discriminate].
        destruct (_ && _); [destruct Hin as [Hin | []]; discriminate | destruct Hin].
      * intros (issue' & Heq & Hst). injection Heq as <-. contradiction.
  - split; [intros [] | intros (issue & Heq & _); discriminate].
Qed.

(** X13: whatever cards are clicked, however often the dialog is closed
    and the effect runs again, an issue in the detail dialog is one that is
    solved or rejected; so when the dialog is open under the title
    "Rejected Issue" (the title of everything that is not solved) the issue
    really is rejected, and the body shows "XP Points Deducted: -10"
    exactly then. *)
Theorem X13_dialog_shows_resolved_issues_only
    (b : Browser) (events : list Event) :
  (forall issue,
      selectedIssue (run events (mount b)) = Some issue ->
      Issue.status issue = "solved" \/ Issue.status issue = "rejected")
  /\ (forall issue,
        selectedIssue (run events (mount b)) = Some issue ->
        (DialogTitle (run events (mount b)) = "Solved Issue"
         <-> Issue.status issue = "solved")
        /\ (DialogTitle (run events (mount b)) = "Rejected Issue"
            <-> Issue.status issue = "rejected"))
  /\ (In XPDeducted (DialogBody (run events (mount b)))
      <-> dialog_open (run events (mount b)) = true
          /\ DialogTitle (run events (mount b)) = "Rejected Issue").
Proof.
  assert (Hsel : selection_resolved (run events (mount b))).
  { apply selection_resolved_run. intros issue Heq. discriminate. }
  set (s := run events (mount b)) in *.
  assert (Htitle : forall issue,
             selectedIssue s = Some issue ->
             (DialogTitle s = "Solved Issue" <-> Issue.status issue = "solved")
             /\ (DialogTitle s = "Rejected Issue"
                 <-> Issue.status issue = "rejected")).
  { intros issue Heq. pose proof (Hsel issue Heq) as Hres.
    apply resolved_true in Hres. unfold DialogTitle. rewrite Heq.
    cbn [JS.optional_chain JS.strict_eq].
    destruct (String.eqb "solved" (Issue.status issue)) eqn:Hsolved.
    - apply String.eqb_eq in Hsolved.
      split; split; try discriminate; try congruence; auto.
    - apply String.eqb_neq in Hsolved.
      destruct Hres as [Hres | Hres]; [congruence |].
      split; split; try discriminate; try congruence; auto. }
  split; [intros issue Heq; now apply resolved_true, Hsel |].
  split; [exact Htitle |].
  rewrite XPDeducted_in_body. unfold dialog_open. split.
  - intros (issue & Heq & Hrej). rewrite Heq. split; [reflexivity |].
    now apply (Htitle issue Heq).
  - intros [Hopen Ht]. destruct (selectedIssue s) as [issue|] eqn:Heq;
      [| discriminate].
    exists issue. split; [reflexivity |]. now apply (Htitle issue eq_refl).
Qed.

Lemma X13_dialog_shows_resolved_issues_only_witness :
  In XPDeducted
    (DialogBody (run [Effect; ClickCard 0; Effect] (mount later_visit))).
Proof.
  apply (proj2 (proj2 (X13_dialog_shows_resolved_issues_only later_visit
                         [Effect; ClickCard 0; Effect]))).
  split; reflexivity.
Defined.

(** What the dashboard shows comes out of the store. *)
Lemma shown_issues_step (b : Browser) (P : Issue.t -> Prop) (e : Event) (s : State) :
  Forall P (stored_issues b) ->
  storage (CitizenDashboard.browser (data s)) = storage b ->
  Forall P (CitizenDashboard.issues (data s)) ->
  storage (CitizenDashboard.browser (data (step e s))) = storage b
  /\ Forall P (CitizenDashboard.issues (data (step e s))).
Proof.
  intros Hstored Hstore Hshown. destruct e as [index | |]; cbn [step].
  - destruct (CitizenDashboard.issues (data s) !! index) as [issue|];
      [| now split].
    unfold onCardClick. destruct (resolved issue); now split.
  - now split.
  - cbn [on_data data].
    split; [now rewrite (proj1 (fetchIssues_reads_only (data s))) |].
    pose proof (fetchIssues_by_cases (data s)) as Hcases.
    unfold issues_list in Hcases. unfold stored_issues in Hstored.
    rewrite Hstore in Hcases.
    destruct (Storage.issuesData (storage b)) as [[|[[l|]]]|];
      try (destruct Hcases as [-> _]; exact Hshown).
    destruct Hcases as [-> _]. cbn [default from_option id] in Hstored.
    rewrite Forall_forall in Hstored. apply Forall_forall. intros x Hx.
    apply userIssues_elem_of in Hx as [Hx _]. now apply Hstored.
Qed.

(** X14: when no issue in the store is solved or rejected, the detail
    dialog never opens, whatever is clicked. *)
Theorem X14_dialog_stays_closed_on_unresolved_store
    (b : Browser) (events : list Event) :
  Forall (fun issue => resolved issue = false) (stored_issues b) ->
  selectedIssue (run events (mount b)) = None
  /\ dialog_open (run events (mount b)) = false
  /\ DialogBody (run events (mount b)) = [].
Proof.
  intros Hstored.
  assert (Hrun : forall s,
             storage (CitizenDashboard.browser (data s)) = storage b ->
             Forall (fun issue => resolved issue = false)
               (CitizenDashboard.issues (data s)) ->
             selectedIssue s = None ->
             selectedIssue (run events s) = None).
  { induction events as [|e events IH]; intros s Hstore Hshown Hnone;
      [exact Hnone |].
    destruct (shown_issues_step b _ e s Hstored Hstore Hshown) as [Hstore' Hshown'].
    apply (IH (step e s) Hstore' Hshown').
    destruct e as [index | |]; cbn [step]; [| reflexivity | exact Hnone].
    destruct (CitizenDashboard.issues (data s) !! index) as [issue|] eqn:Hlook;
      [| exact Hnone].
    unfold onCardClick.
    rewrite Forall_forall in Hshown.
    rewrite (Hshown issue); [exact Hnone |].
    apply list_elem_of_lookup. now exists index. }
  assert (Hnone : selectedIssue (run events (mount b)) = None).
  { apply Hrun; [reflexivity | constructor | reflexivity]. }
  unfold dialog_open, DialogBody. rewrite Hnone. repeat split.
Qed.

Lemma X14_dialog_stays_closed_on_unresolved_store_witness :
  selectedIssue
    (run [Effect; ClickCard 0]
       (mount
          (ReportIssue.browser
             (ReportIssue.handleSubmit sample_env (pothole_form first_visit)))))
  = None.
Proof.
  refine (proj1
            (X14_dialog_stays_closed_on_unresolved_store
               (ReportIssue.browser
                  (ReportIssue.handleSubmit sample_env
                     (pothole_form first_visit)))
               [Effect; ClickCard 0] _)).
  repeat constructor.
Defined.

End Dialog.

Section DialogImages.
Import DashboardView.

(** X15: the detail dialog shows the reporter's own image only for a
    rejected issue and the solution image only for a solved one, never
    both, and never an image whose URL is [null] or empty. *)
Theorem X15_dialog_images (s : State) (src : option string) :
  (In (SubmittedImage src) (DialogBody s) ->
   exists issue, selectedIssue s = Some issue
                 /\ Issue.status issue = "rejected"
                 /\ src = Issue.image_url issue
                 /\ truthy_url src = true)
  /\ (In (SolutionImage src) (DialogBody s) ->
      exists issue, selectedIssue s = Some issue
                    /\ Issue.status issue = "solved"
                    /\ src = Issue.solution_image_url issue
                    /\ truthy_url src = true)
  /\ ~ (exists src1 src2,
           In (SubmittedImage src1) (DialogBody s)
           /\ In (SolutionImage src2) (DialogBody s)).
Proof.
  assert (Hsub : forall src',
             In (SubmittedImage src') (DialogBody s) ->
             exists issue, selectedIssue s = Some issue
                           /\ Issue.status issue = "rejected"
                           /\ src' = Issue.image_url issue
                           /\ truthy_url src' = true).
  { intros src'. unfold DialogBody.
    destruct (selectedIssue s) as [issue|]; [| intros []].
    destruct (String.eqb (Issue.status issue) "rejected") eqn:Hrej;
      destruct (truthy_url (Issue.image_url issue)) eqn:Himg;
      destruct (String.eqb (Issue.status issue) "solved"
                && truthy_url (Issue.solution_image_url issue));
      cbn [app In]; intros Hin;
      repeat (destruct Hin as [Hin | Hin]; try discriminate);
      try contradiction.
    all: injection Hin as <-; exists issue; apply String.eqb_eq in Hrej; auto. }
  assert (Hsol : forall src',
             In (SolutionImage src') (DialogBody s) ->
             exists issue, selectedIssue s = Some issue
                           /\ Issue.status issue = "solved"
                           /\ src' = Issue.solution_image_url issue
                           /\ truthy_url src' = true).
  { intros src'. unfold DialogBody.
    destruct (selectedIssue s) as [issue|]; [| intros []].
    destruct (String.eqb (Issue.status issue) "rejected");
      destruct (truthy_url (Issue.image_url issue));
      destruct (String.eqb (Issue.status issue) "solved") eqn:Hsolved;
      destruct (truthy_url (Issue.solution_image_url issue)) eqn:Himg;
      cbn [app In andb]; intros Hin;
      repeat (destruct Hin as [Hin | Hin]; try discriminate);
      try contradiction.
    all: injection Hin as <-; exists issue; apply String.eqb_eq in Hsolved; auto. }
  split; [apply Hsub |]. split; [apply Hsol |].
  intros (src1 & src2 & H1 & H2).
  destruct (Hsub src1 H1) as (issue & Heq & Hrej & _).
  destruct (Hsol src2 H2) as (issue' & Heq' & Hsolved & _).
  rewrite Heq in Heq'. injection Heq' as <-. rewrite Hrej in Hsolved.
  discriminate.
Qed.

Lemma X15_dialog_images_witness :
  exists issue,
    selectedIssue (run [Effect; ClickCard 0] (mount later_visit)) = Some issue
    /\ Issue.status issue = "rejected"
    /\ Some "blob:light.jpg" = Issue.image_url issue
    /\ truthy_url (Some "blob:light.jpg") = true.
Proof.
  apply (proj1 (X15_dialog_images
                  (run [Effect; ClickCard 0] (mount later_visit))
                  (Some "blob:light.jpg"))).
  right. right. left. reflexivity.
Defined.

End DialogImages.

(** * Further properties of the leaderboard *)

Section LeaderboardShape.
Import CitizenDashboard.

Lemma Array_sort_of_sorted (l : list User.t) :
  StronglySorted xp_ge l -> JS.Array_sort by_xp_descending l = l.
Proof.
  induction 1 as [|x l Hs IH Hx]; [reflexivity |].
  cbn [JS.Array_sort]. rewrite IH.
  destruct l as [|y l]; [reflexivity |]. cbn [JS.sort_insert].
  apply Forall_cons in Hx as [Hxy _]. unfold xp_ge in Hxy.
  unfold by_xp_descending.
  destruct (0 <? User.xp_points y - User.xp_points x) eqn:Hcmp;
    [| reflexivity].
  apply Z.ltb_lt in Hcmp. lia.
Qed.

Lemma sortedCitizens_sorted (l : list User.t) :
  StronglySorted xp_ge (sortedCitizens l).
Proof.
  rewrite sortedCitizens_take.
  pose proof (Array_sort_by_xp_sorted l) as Hsorted.
  rewrite <- (take_drop 5 (JS.Array_sort by_xp_descending l)) in Hsorted.
  now apply StronglySorted_app_le in Hsorted as [Htop _].
Qed.

(** X16: citizens stored in descending order of points are shown in
    their stored order (the first five of them), and ranking a leaderboard
    again gives the same leaderboard. *)
Theorem X16_leaderboard_of_ranked_list (l : list User.t) :
  (StronglySorted xp_ge l -> sortedCitizens l = take 5 l)
  /\ sortedCitizens (sortedCitizens l) = sortedCitizens l.
Proof.
  split.
  - intros Hsorted. rewrite sortedCitizens_take.
    now rewrite Array_sort_of_sorted.
  - rewrite (sortedCitizens_take (sortedCitizens l)).
    rewrite (Array_sort_of_sorted _ (sortedCitizens_sorted l)).
    rewrite sortedCitizens_take. apply take_idemp.
Qed.

Lemma X16_leaderboard_of_ranked_list_witness :
  sortedCitizens [carol; alice; bob] = [carol; alice; bob].
Proof.
  apply (proj1 (X16_leaderboard_of_ranked_list [carol; alice; bob])).
  repeat constructor; unfold xp_ge; simpl; lia.
Defined.

(** X17: the leaderboard is empty only when no citizen is stored; its
    first row has the most points of all stored citizens; and with five
    citizens or fewer everyone is on it. *)
Theorem X17_leaderboard_head_and_completeness (l : list User.t) :
  (sortedCitizens l = [] <-> l = [])
  /\ (forall top rest,
        sortedCitizens l = top :: rest ->
        top ∈ l /\ forall c, c ∈ l -> User.xp_points c <= User.xp_points top)
  /\ ((length l <= 5)%nat -> sortedCitizens l ≡ₚ l).
Proof.
  split; [| split].
  - split; [| intros ->; reflexivity].
    intros Hnil. apply (f_equal length) in Hnil.
    rewrite sortedCitizens_take, length_take, Array_sort_length in Hnil.
    destruct l; [reflexivity | simpl in Hnil; lia].
  - intros top rest Htop. rewrite sortedCitizens_take in Htop.
    pose proof (Array_sort_by_xp_sorted l) as Hsorted.
    pose proof (Array_sort_perm by_xp_descending l) as Hperm.
    destruct (JS.Array_sort by_xp_descending l) as [|x sorted];
      [discriminate |].
    cbn [take] in Htop. injection Htop as -> _.
    apply StronglySorted_inv in Hsorted as [_ Hall].
    split; [rewrite <- Hperm; left |].
    intros c Hc. rewrite <- Hperm in Hc.
    apply elem_of_cons in Hc as [-> | Hc]; [lia |].
    rewrite Forall_forall in Hall. now apply Hall.
  - intros Hlen. rewrite sortedCitizens_take.
    rewrite take_ge by (rewrite Array_sort_length; exact Hlen).
    apply Array_sort_perm.
Qed.

Lemma X17_leaderboard_head_and_completeness_witness :
  sortedCitizens [alice; bob; carol] ≡ₚ [alice; bob; carol].
Proof.
  apply (proj2 (proj2 (X17_leaderboard_head_and_completeness
                         [alice; bob; carol]))).
  simpl. lia.
Defined.

End LeaderboardShape.

(** * The rating on doubles *)

(** X18: for each of the three severities and every description of up
    to 400 characters (twice the length at which the description score is
    capped), evaluating [calculatePriorityRating] in binary64 arithmetic
    gives the double nearest to the exact rating. *)
Theorem X18_binary64_rating_is_exact_rating_rounded (sev : Severity) (L : nat) :
  (L <= 400)%nat ->
  PrimFloat.eqb
    (Binary64_rating (severity_name sev) (JS.String_repeat "x" L))
    (Binary64.of_rating
       (ReportIssue.calculatePriorityRating (severity_name sev)
          (JS.String_repeat "x" L)))
  = true.
Proof.
  intros HL.
  pose proof binary64_rating_agrees as Hall.
  rewrite forallb_forall in Hall.
  assert (Hin : In L (seq 0 401)) by (apply in_seq; lia).
  specialize (Hall L Hin). unfold Binary64.agrees in Hall.
  rewrite forallb_forall in Hall.
  unfold Binary64_rating. rewrite length_String_repeat_x.
  destruct sev.
  - apply (Hall low). now left.
  - apply (Hall medium). right. now left.
  - apply (Hall high). right. right. now left.
Qed.

Lemma X18_binary64_rating_is_exact_rating_rounded_witness :
  PrimFloat.eqb
    (Binary64_rating "medium" (JS.String_repeat "x" 55))
    (Binary64.of_rating
       (ReportIssue.calculatePriorityRating "medium" (JS.String_repeat "x" 55)))
  = true.
Proof.
  apply (X18_binary64_rating_is_exact_rating_rounded medium 55%nat). lia.
Defined.

(** * The submit button and the issue cards *)

Section SubmitButton.
Import ReportIssue.

Lemma handleSubmit_loading (env : Env) (f : State) :
  loading f = false -> loading (handleSubmit env f) = false.
Proof.
  intros Hl.
  destruct (handleSubmit_cases env f) as [-> | [-> | (u & Hwf & Hu & Hok)]];
    [exact Hl | reflexivity |].
  now rewrite (handleSubmit_submitted env f u Hwf Hu Hok).
Qed.

Lemma step_loading (e : ReportForm.Event) (s : ReportForm.State) :
  loading (ReportForm.form s) = false ->
  loading (ReportForm.form (ReportForm.step e s)) = false.
Proof.
  intros Hl. destruct s as [f preview].
  destruct e as [v | v | sev | geo | files | result | checked | env |];
    try exact Hl.
  - destruct geo; exact Hl.
  - unfold ReportForm.step, ReportForm.handleImageUpload.
    destruct (ReportForm.first_file files); exact Hl.
  - now apply handleSubmit_loading.
Qed.

(** X19: [handleSubmit] sets and clears the loading flag within one call
    (it never awaits), so between events the flag is always off: the
    submit button is disabled exactly when the verification box is not
    ticked, and never because a submission is under way. *)
Theorem X19_loading_is_never_left_on
    (b : Browser) (events : list ReportForm.Event) :
  loading (ReportForm.form (ReportForm.run events (ReportForm.initial b)))
  = false
  /\ ReportForm.submit_disabled (ReportForm.run events (ReportForm.initial b))
     = negb (verified
               (ReportForm.form
                  (ReportForm.run events (ReportForm.initial b)))).
Proof.
  assert (Hrun : forall s,
             loading (ReportForm.form s) = false ->
             loading (ReportForm.form (ReportForm.run events s)) = false).
  { induction events as [|e events IH]; intros s Hl; [exact Hl |].
    apply (IH (ReportForm.step e s)). now apply step_loading. }
  assert (Hl : loading
                 (ReportForm.form
                    (ReportForm.run events (ReportForm.initial b))) = false)
    by now apply Hrun.
  split; [exact Hl |]. unfold ReportForm.submit_disabled. now rewrite Hl.
Qed.

End SubmitButton.

Section Cards.
Import DashboardView.

(** X20: the card of an issue and the dialog agree.  With the dialog
    closed, a card is styled as clickable exactly when clicking it opens
    the dialog (on that issue); the card carries the "(-10 XP)" note
    exactly when the dialog it opens shows "XP Points Deducted: -10"; and
    that note goes with the red status text. *)
Theorem X20_card_agrees_with_dialog (issue : Issue.t) (s : State) :
  selectedIssue s = None ->
  (clickable (render_card issue) = true
   <-> selectedIssue (onCardClick issue s) = Some issue)
  /\ (clickable (render_card issue) = false <-> onCardClick issue s = s)
  /\ (xp_note (render_card issue) = true
      <-> In XPDeducted (DialogBody (onCardClick issue s)))
  /\ (xp_note (render_card issue) = true
      <-> status_class (render_card issue) = "text-red-600").
Proof.
  intros Hclosed. cbn [render_card clickable xp_note status_class].
  unfold onCardClick.
  split; [| split; [| split]].
  - destruct (resolved issue); cbn [setSelectedIssue selectedIssue].
    + split; reflexivity.
    + rewrite Hclosed. split; discriminate.
  - destruct (resolved issue) eqn:Hres.
    + split; [discriminate |]. intros Heq.
      apply (f_equal selectedIssue) in Heq. cbn in Heq. congruence.
    + split; reflexivity.
  - rewrite XPDeducted_in_body, String.eqb_eq.
    unfold resolved.
    destruct (String.eqb (Issue.status issue) "rejected") eqn:Hrej.
    + rewrite Bool.orb_true_r. cbn [setSelectedIssue selectedIssue].
      apply String.eqb_eq in Hrej. split; [| intros _; exact Hrej].
      intros _. now exists issue.
    + apply String.eqb_neq in Hrej. split; [contradiction |].
      intros (issue' & Heq & Hst).
      destruct (String.eqb (Issue.status issue) "solved");
        cbn [orb setSelectedIssue selectedIssue] in Heq.
      * injection Heq as <-. contradiction.
      * congruence.
  - destruct (String.eqb (Issue.status issue) "solved") eqn:Hsolved.
    + apply String.eqb_eq in Hsolved. rewrite Hsolved.
      split; discriminate.
    + destruct (String.eqb (Issue.status issue) "rejected");
        split; try reflexivity; discriminate.
Qed.

Lemma X20_card_agrees_with_dialog_witness :
  clickable
    (render_card
       (ReportIssue.newIssue sample_env (pothole_form first_visit) "u1"))
  = false.
Proof.
  apply (proj1 (proj2 (X20_card_agrees_with_dialog
                         (ReportIssue.newIssue sample_env
                            (pothole_form first_visit) "u1")
                         (mount first_visit) eq_refl))).
  reflexivity.
Defined.

End Cards.
